(** * profile-card: the application controller and its data source

    A shallow embedding of [js/apiService.js] (class [ApiService]),
    of the part of [js/domManager.js] the controller drives (class
    [DomManager]) and of [js/app.js] (class [ProfileCardApp]).

    JavaScript values are a small tagged union, [async] methods are
    trees of effects that suspend at the network request and at the
    timer, and the browser (DOM calls, [Math.random], [fetch]) is a
    [World] the trees are interpreted in. *)

From Stdlib Require Import ZArith String Ascii List Bool Lia.
From Stdlib Require Import DecimalString.
Import ListNotations.

Local Open Scope list_scope.
Local Open Scope string_scope.
Local Open Scope Z_scope.

(* ================================================================== *)
(** ** JavaScript values and strings *)

Module Js.

(** The values that reach the code: the fields of a parsed JSON body and
    the arguments of the public methods.  Numbers are the integers (the
    counts and ids of the upstream API); [JObject] stands for any object
    or array, which is all the code can tell about one. *)
Inductive JsVal : Type :=
| JUndefined
| JNull
| JBool (b : bool)
| JNum (z : Z)
| JStr (s : string)
| JObject.

(** ToBoolean: [undefined], [null], [false], [0] and the empty string are
    falsy. *)
Definition truthy (v : JsVal) : bool :=
  match v with
  | JUndefined | JNull => false
  | JBool b => b
  | JNum z => negb (Z.eqb z 0)
  | JStr s => negb (String.eqb s "")
  | JObject => true
  end.

(** [a || b] *)
Definition js_or (a b : JsVal) : JsVal := if truthy a then a else b.

(** ToString, as a template literal applies it. *)
Definition toString (v : JsVal) : string :=
  match v with
  | JUndefined => "undefined"
  | JNull => "null"
  | JBool true => "true"
  | JBool false => "false"
  | JNum z => NilZero.string_of_int (Z.to_int z)
  | JStr s => s
  | JObject => "[object Object]"
  end.

(** [typeof v === "string"] *)
Definition isString (v : JsVal) : bool :=
  match v with JStr _ => true | _ => false end.

(** [hay.includes(needle)] *)
Fixpoint includes (needle hay : string) : bool :=
  match hay with
  | EmptyString => prefix needle EmptyString
  | String _ rest => prefix needle hay || includes needle rest
  end.

(** White space and line terminators of [String.prototype.trim], among
    the one-byte code units: TAB, LF, VT, FF, CR, SP and NBSP. *)
Definition isWhiteSpace (c : ascii) : bool :=
  let n := nat_of_ascii c in
  ((n =? 9) || (n =? 10) || (n =? 11) || (n =? 12) || (n =? 13)
   || (n =? 32) || (n =? 160))%nat.

Fixpoint trimStart (s : string) : string :=
  match s with
  | EmptyString => EmptyString
  | String c rest => if isWhiteSpace c then trimStart rest else s
  end.

Fixpoint trimEnd (s : string) : string :=
  match s with
  | EmptyString => EmptyString
  | String c rest =>
      let t := trimEnd rest in
      if isWhiteSpace c && String.eqb t "" then EmptyString else String c t
  end.

Definition trim (s : string) : string := trimEnd (trimStart s).

(** A non-negative Number that is not an integer count: the double
    [mant * 2^expo], with [0 <= mant < 2^53] and [-1074 <= expo].  These
    are the numbers [Math.random()] returns and what is computed from
    them. *)
Record Double : Type := mkDouble { mant : Z; expo : Z }.

Definition isDouble (d : Double) : Prop :=
  0 <= mant d < 2 ^ 53 /\ -1074 <= expo d.

(** The Number of a count ([array.length]). *)
Definition ofCount (n : Z) : Double := mkDouble n 0.

(** The double nearest to [n * 2^e], ties to the even significand: the
    bits of [n] beyond the 53rd, or below the exponent -1074, are
    rounded away.  A significand that rounds up to [2^53] is kept as it
    is (the number is the double [2^52 * 2^(e + shift + 1)]); the numbers
    of this program stay far below the largest double. *)
Definition roundDouble (n e : Z) : Double :=
  let shift := Z.max 0 (Z.max (Z.log2 n + 1 - 53) (- 1074 - e)) in
  let q := n / 2 ^ shift in
  let rest := n mod 2 ^ shift in
  let up := (2 ^ shift <? 2 * rest)
            || ((2 * rest =? 2 ^ shift) && Z.odd q) in
  mkDouble (if up then q + 1 else q) (e + shift).

(** [a * b]: the exact product, rounded once. *)
Definition times (a b : Double) : Double :=
  roundDouble (mant a * mant b) (expo a + expo b).

(** [Math.floor(d)] *)
Definition floor (d : Double) : Z :=
  if 0 <=? expo d then mant d * 2 ^ expo d else mant d / 2 ^ (- expo d).

(** [a > b] *)
Definition greater (a b : Double) : bool :=
  let e := Z.min (expo a) (expo b) in
  mant b * 2 ^ (expo b - e) <? mant a * 2 ^ (expo a - e).

(** What a [throw] carries: an error object with its [name] and
    [message], or [undefined] (the retry loop's [lastError] before any
    attempt). *)
Inductive Thrown : Type :=
| ErrorObject (name message : string)
| ThrownUndefined.

(** [new Error(message)] *)
Definition Error (message : string) : Thrown := ErrorObject "Error" message.

(** The TypeError of a property read on [undefined]. *)
Definition readOfUndefined (prop : string) : Thrown :=
  ErrorObject "TypeError"
    ("Cannot read properties of undefined (reading '" ++ prop ++ "')").

End Js.
Import Js.

(* ================================================================== *)
(** ** Payloads, records and the network *)

(** The parsed JSON body of [GET {baseUrl}/{username}]: an object whose
    absent fields read as [JUndefined]. *)
Record RawUser : Type := mkRawUser {
  raw_id : JsVal;
  raw_login : JsVal;
  raw_name : JsVal;
  raw_avatar_url : JsVal;
  raw_bio : JsVal;
  raw_location : JsVal;
  raw_email : JsVal;
  raw_company : JsVal;
  raw_blog : JsVal;
  raw_followers : JsVal;
  raw_following : JsVal;
  raw_public_repos : JsVal;
  raw_created_at : JsVal;
  raw_html_url : JsVal
}.

(** The object literal [processUserData] returns. *)
Record UserRecord : Type := mkUserRecord {
  id : JsVal;
  username : JsVal;
  name : JsVal;
  avatar : JsVal;
  bio : JsVal;
  location : JsVal;
  email : JsVal;
  company : JsVal;
  blog : JsVal;
  followers : JsVal;
  following : JsVal;
  publicRepos : JsVal;
  joinDate : JsVal;
  htmlUrl : JsVal
}.

(** [response.json()]: the body parses to an object, or the promise
    rejects. *)
Inductive JsonBody : Type :=
| JsonRejected (e : Thrown)
| JsonParsed (data : RawUser).

Record Response : Type := mkResponse {
  status : Z;
  body : JsonBody
}.

(** [response.ok]: the status is in the range 200-299. *)
Definition ok (r : Response) : bool :=
  (200 <=? status r) && (status r <=? 299).

(** How the promise of [fetch(url)] settles. *)
Inductive FetchOutcome : Type :=
| FetchRejected (e : Thrown)
| FetchResolved (r : Response).

(* ================================================================== *)
(** ** Effects *)

(** What the browser is seen to do, in order: the [DomManager] methods
    and DOM writes, console output, network requests and timers. *)
Inductive Event : Type :=
| EvShowLoadingState
| EvShowErrorState (message : string)
| EvShowProfileCard
| EvUpdateBasicInfo (u : UserRecord)
| EvUpdateStats (u : UserRecord)
| EvUpdateContact (emailText companyText : string)
| EvWebsiteText (text : string)
| EvWebsiteLink (href : string)
| EvWebsiteHidden
| EvUpdateJoinDate (joinDate : JsVal)
| EvUpdateBio (u : UserRecord)
| EvShowNotification (message type : string)
| EvAlert (text : string)
| EvAddRefreshButtonLoading
| EvRemoveRefreshButtonLoading
| EvConsoleError (label : string) (e : Thrown)
| EvFetch (url : string)
| EvSetTimeout (ms : Z).

(** The primitive operations of the code: reads and writes of the
    controller's two fields and of the follow button, an observable
    event, a draw of [Math.random()], and the two awaited operations. *)
Inductive Op : Type :=
| GetCurrentUser
| SetCurrentUser (u : option UserRecord)
| GetIsLoading
| SetIsLoading (b : bool)
| GetFollowBtn
| SetFollowBtn (b : bool)
| Emit (e : Event)
| MathRandom
| Fetch (url : string)
| SetTimeout (ms : Z).

Definition answer (o : Op) : Type :=
  match o with
  | GetCurrentUser => option UserRecord
  | GetIsLoading => bool
  | GetFollowBtn => bool
  | MathRandom => Double
  | Fetch _ => FetchOutcome
  | _ => unit
  end.

(** A method body: it returns, throws, or performs an operation and goes
    on with its answer.  A call of another method, awaited or not, is
    [bind]: the suspensions of the callee are those of the caller.  The
    suspension points are the two awaited operations, [Fetch] and
    [SetTimeout]; the body of the response is read with it. *)
Inductive Async (A : Type) : Type :=
| Ret (a : A)
| Throw (e : Thrown)
| Do (o : Op) (k : answer o -> Async A).

Arguments Ret {A} a.
Arguments Throw {A} e.
Arguments Do {A} o k.

Fixpoint bind {A B : Type} (t : Async A) (f : A -> Async B) : Async B :=
  match t with
  | Ret a => f a
  | Throw e => Throw e
  | Do o k => Do o (fun x => bind (k x) f)
  end.

(** [try { t } catch (error) { h error }] *)
Fixpoint tryCatch {A : Type} (t : Async A) (h : Thrown -> Async A) : Async A :=
  match t with
  | Ret a => Ret a
  | Throw e => h e
  | Do o k => Do o (fun x => tryCatch (k x) h)
  end.

(** [try { t } finally { f }] *)
Fixpoint finally {A : Type} (t : Async A) (f : Async unit) : Async A :=
  match t with
  | Ret a => bind f (fun _ => Ret a)
  | Throw e => bind f (fun _ => Throw e)
  | Do o k => Do o (fun x => finally (k x) f)
  end.

Definition perform (o : Op) : Async (answer o) := Do o (fun x => Ret x).

Declare Scope async_scope.
Delimit Scope async_scope with async.
Bind Scope async_scope with Async.
Notation "x <- t ;; k" := (bind t (fun x => k))
  (at level 61, t at next level, right associativity) : async_scope.
Notation "t ;; k" := (bind t (fun _ => k))
  (at level 61, right associativity) : async_scope.
Local Open Scope async_scope.

Definition emit (e : Event) : Async unit := perform (Emit e).

(** [await fetch(url)] *)
Definition fetch (url : string) : Async Response :=
  o <- perform (Fetch url) ;;
  match o with
  | FetchRejected e => Throw e
  | FetchResolved r => Ret r
  end.

(** [await response.json()] *)
Definition json (r : Response) : Async RawUser :=
  match body r with
  | JsonRejected e => Throw e
  | JsonParsed data => Ret data
  end.

(** [await new Promise((resolve) => setTimeout(resolve, delay))] *)
Definition sleep (delay : Z) : Async unit := perform (SetTimeout delay).

(* ================================================================== *)
(** ** The browser *)

(** One widget instance and its surroundings: the controller's fields
    ([None] is [null]), whether the follow button reads "Following", the
    events so far (oldest first), the draws [Math.random()] will return
    and the outcomes the next requests will settle with. *)
Record World : Type := mkWorld {
  currentUser : option UserRecord;
  isLoading : bool;
  followBtn : bool;
  trace : list Event;
  entropy : list Double;
  network : list FetchOutcome
}.

Definition set_currentUser (u : option UserRecord) (w : World) : World :=
  mkWorld u (isLoading w) (followBtn w) (trace w) (entropy w) (network w).

Definition set_isLoading (b : bool) (w : World) : World :=
  mkWorld (currentUser w) b (followBtn w) (trace w) (entropy w) (network w).

Definition set_followBtn (b : bool) (w : World) : World :=
  mkWorld (currentUser w) (isLoading w) b (trace w) (entropy w) (network w).

Definition set_entropy (q : list Double) (w : World) : World :=
  mkWorld (currentUser w) (isLoading w) (followBtn w) (trace w) q (network w).

Definition set_network (n : list FetchOutcome) (w : World) : World :=
  mkWorld (currentUser w) (isLoading w) (followBtn w) (trace w) (entropy w) n.

Definition log (e : Event) (w : World) : World :=
  mkWorld (currentUser w) (isLoading w) (followBtn w) (trace w ++ [e])
          (entropy w) (network w).

(** How far a call is run: [UntilAwait] stops where the method awaits the
    network or the timer (the synchronous part of the call, after which
    other handlers may run); [ToCompletion] settles each request with the
    next outcome of the world and lets each timer fire. *)
Inductive Mode : Type := UntilAwait | ToCompletion.

(** One operation on the world; [None] as answer is a suspension.  The
    request is sent and the timer is set before the method suspends. *)
Definition step (m : Mode) (o : Op) (w : World) : World * option (answer o) :=
  match o return World * option (answer o) with
  | GetCurrentUser => (w, Some (currentUser w))
  | SetCurrentUser u => (set_currentUser u w, Some tt)
  | GetIsLoading => (w, Some (isLoading w))
  | SetIsLoading b => (set_isLoading b w, Some tt)
  | GetFollowBtn => (w, Some (followBtn w))
  | SetFollowBtn b => (set_followBtn b w, Some tt)
  | Emit e => (log e w, Some tt)
  | MathRandom =>
      match entropy w with
      | r :: rest => (set_entropy rest w, Some r)
      | [] => (w, Some (mkDouble 0 0))
      end
  | Fetch url =>
      let w' := log (EvFetch url) w in
      match m, network w' with
      | ToCompletion, out :: rest => (set_network rest w', Some out)
      | _, _ => (w', None)
      end
  | SetTimeout ms =>
      let w' := log (EvSetTimeout ms) w in
      match m with
      | ToCompletion => (w', Some tt)
      | UntilAwait => (w', None)
      end
  end.

(** Where a call stands: it returned, it threw, or it is suspended on an
    awaited operation with the rest of its body. *)
Inductive Outcome (A : Type) : Type :=
| Returned (a : A)
| Raised (e : Thrown)
| Pending (o : Op) (k : answer o -> Async A).

Arguments Returned {A} a.
Arguments Raised {A} e.
Arguments Pending {A} o k.

Fixpoint interp (m : Mode) {A : Type} (t : Async A) (w : World)
  : World * Outcome A :=
  match t with
  | Ret a => (w, Returned a)
  | Throw e => (w, Raised e)
  | Do o k =>
      match step m o w with
      | (w', Some x) => interp m (k x) w'
      | (w', None) => (w', Pending o k)
      end
  end.

(** The synchronous part of a call. *)
Definition call {A : Type} (t : Async A) (w : World) : World * Outcome A :=
  interp UntilAwait t w.

(** The whole call, run alone. *)
Definition run {A : Type} (t : Async A) (w : World) : World * Outcome A :=
  interp ToCompletion t w.

(** A call suspended on its request goes on, in the world of that moment,
    when the request settles with [out]. *)
Definition settle {A : Type} (p : Outcome A) (out : FetchOutcome) (w : World)
  : World * Outcome A :=
  match p with
  | Pending o k =>
      match o return (answer o -> Async A) -> World * Outcome A with
      | Fetch _ => fun k => call (k out) w
      | _ => fun _ => (w, p)
      end k
  | _ => (w, p)
  end.

(** The requests and the timers of a trace. *)
Fixpoint fetches (tr : list Event) : list string :=
  match tr with
  | [] => []
  | EvFetch url :: rest => url :: fetches rest
  | _ :: rest => fetches rest
  end.

Fixpoint timeouts (tr : list Event) : list Z :=
  match tr with
  | [] => []
  | EvSetTimeout ms :: rest => ms :: timeouts rest
  | _ :: rest => timeouts rest
  end.

(* ================================================================== *)
(** ** js/apiService.js *)

Module ApiService.

Definition baseUrl : string := "https://api.github.com/users".

Definition usernames : list string :=
  [ "octocat"; "defunkt"; "mojombo"; "wycats"; "ezmobius"; "ivey";
    "evanphx"; "vanpelt"; "wayneeseguin"; "brynary"; "kevinclark";
    "technoweenie"; "macournoyer"; "takeo"; "caged"; "topfunky";
    "anotherjesse"; "roland"; "lukas"; "fanvsfan"; "tomtt"; "railsjitsu";
    "nitay"; "kevwil"; "KirinDave"; "jamesgolick"; "atmos"; "errfree";
    "mojodna"; "bmizerany"; "jnewland"; "josh"; "fearoffish"; "court3nay";
    "ry"; "bkeepers"; "indirect"; "jamtur01"; "kneath"; "bendycode";
    "ryanseys" ].

(** [array[i]]: [undefined] outside the array. *)
Definition element (array : list string) (i : Z) : JsVal :=
  if i <? 0 then JUndefined
  else match nth_error array (Z.to_nat i) with
       | Some s => JStr s
       | None => JUndefined
       end.

Definition getRandomUsername : Async JsVal :=
  r <- perform MathRandom ;;
  Ret (element usernames
         (floor (times r (ofCount (Z.of_nat (List.length usernames)))))).

Definition processUserData (data : RawUser) : UserRecord :=
  {| id := raw_id data;
     username := raw_login data;
     name := js_or (raw_name data) (raw_login data);
     avatar := raw_avatar_url data;
     bio := js_or (raw_bio data) (JStr "No bio available");
     location := js_or (raw_location data) (JStr "Location not specified");
     email := js_or (raw_email data) JNull;
     company := js_or (raw_company data) JNull;
     blog := js_or (raw_blog data) JNull;
     followers := js_or (raw_followers data) (JNum 0);
     following := js_or (raw_following data) (JNum 0);
     publicRepos := js_or (raw_public_repos data) (JNum 0);
     joinDate := raw_created_at data;
     htmlUrl := raw_html_url data |}.

Definition handleHttpError (status : Z) : Async unit :=
  if status =? 404 then
    Throw (Error "User not found. Please try again.")
  else if status =? 403 then
    Throw (Error "API rate limit exceeded. Please try again later.")
  else if status =? 500 then
    Throw (Error "Server error. Please try again later.")
  else
    Throw (Error ("HTTP error! status: " ++ toString (JNum status))).

Definition handleNetworkError {A : Type} (error : Thrown) : Async A :=
  match error with
  | ErrorObject name message =>
      if String.eqb name "TypeError" && includes "fetch" message then
        Throw (Error "Network error. Please check your internet connection.")
      else Throw error
  | ThrownUndefined => Throw (readOfUndefined "name")
  end.

Definition fetchUserData (username : JsVal) : Async UserRecord :=
  tryCatch
    (response <- fetch (baseUrl ++ "/" ++ toString username) ;;
     (if negb (ok response) then handleHttpError (status response)
      else Ret tt) ;;
     userData <- json response ;;
     Ret (processUserData userData))
    handleNetworkError.

Definition fetchRandomUser : Async UserRecord :=
  randomUsername <- getRandomUsername ;;
  fetchUserData randomUsername.

Definition isValidUsername (username : JsVal) : bool :=
  truthy username && isString username
  && match username with
     | JStr s => (0 <? String.length (trim s))%nat
     | _ => false
     end.

(** The [for] loop of [fetchUserWithRetry] from [attempt] on.  [fuel]
    bounds the iterations left; [maxRetries] of it cover the loop. *)
Fixpoint retryLoop (username : JsVal) (maxRetries : nat) (fuel : nat)
    (attempt : nat) (lastError : Thrown) : Async UserRecord :=
  match fuel with
  | O => Throw lastError
  | S fuel' =>
      if (attempt <=? maxRetries)%nat then
        tryCatch (fetchUserData username)
          (fun error =>
             match error with
             | ErrorObject _ message =>
                 if includes "not found" message
                    || includes "rate limit" message
                 then Throw error
                 else
                   (if (attempt <? maxRetries)%nat then
                      sleep (2 ^ Z.of_nat attempt * 1000)
                    else Ret tt) ;;
                   retryLoop username maxRetries fuel' (S attempt) error
             | ThrownUndefined => Throw (readOfUndefined "message")
             end)
      else Throw lastError
  end.

Definition fetchUserWithRetry (username : JsVal) (maxRetries : nat)
  : Async UserRecord :=
  retryLoop username maxRetries maxRetries 1 ThrownUndefined.

End ApiService.

(* ================================================================== *)
(** ** js/domManager.js, as far as the controller drives it *)

(** The methods the controller calls, on a page that has every element
    [initializeElements] looks up.  A method is the event of its call,
    together with what the controller can observe of it: the value it
    returns, the draw it takes and the error it throws. *)
Module DomManager.

Definition updateBasicInfo (userData : UserRecord) : Async unit :=
  emit (EvUpdateBasicInfo userData).

(** [animateNumber] takes the draw that names the animation and asks
    for the first frame; the frames are drawn later, off the call. *)
Definition animateNumber (targetNumber : JsVal) : Async unit :=
  perform MathRandom ;; Ret tt.

Definition updateStats (userData : UserRecord) : Async unit :=
  emit (EvUpdateStats userData) ;;
  animateNumber (followers userData) ;;
  animateNumber (following userData) ;;
  animateNumber (publicRepos userData).

(** [blog.startsWith] is a function only of a string. *)
Definition updateWebsite (blog : JsVal) : Async unit :=
  if truthy blog then
    emit (EvWebsiteText (toString blog)) ;;
    match blog with
    | JStr s =>
        emit (EvWebsiteLink (if prefix "http" s then s else "https://" ++ s))
    | _ => Throw (ErrorObject "TypeError" "blog.startsWith is not a function")
    end
  else emit EvWebsiteHidden.

Definition updateJoinDate (joinDate : JsVal) : Async unit :=
  emit (EvUpdateJoinDate joinDate).

Definition updateDetails (userData : UserRecord) : Async unit :=
  emit (EvUpdateContact
          (toString (js_or (email userData) (JStr "Not available")))
          (toString (js_or (company userData) (JStr "Not specified")))) ;;
  updateWebsite (blog userData) ;;
  updateJoinDate (joinDate userData).

Definition updateBio (userData : UserRecord) : Async unit :=
  emit (EvUpdateBio userData).

Definition updateFollowButton : Async unit :=
  r <- perform MathRandom ;;
  perform (SetFollowBtn (greater r (mkDouble 1 (-1)))).

Definition displayUserData (userData : UserRecord) : Async unit :=
  updateBasicInfo userData ;;
  updateStats userData ;;
  updateDetails userData ;;
  updateBio userData ;;
  updateFollowButton.

Definition toggleFollow : Async bool :=
  isCurrentlyFollowing <- perform GetFollowBtn ;;
  if isCurrentlyFollowing then perform (SetFollowBtn false) ;; Ret false
  else perform (SetFollowBtn true) ;; Ret true.

Definition showLoadingState : Async unit := emit EvShowLoadingState.

Definition showErrorState (message : string) : Async unit :=
  emit (EvShowErrorState message).

Definition showProfileCard : Async unit := emit EvShowProfileCard.

Definition showNotification (message type : string) : Async unit :=
  emit (EvShowNotification message type).

Definition showMessageModal (userName username : JsVal) : Async unit :=
  emit (EvAlert ("This would open a message dialog to " ++ toString userName
                 ++ " (@" ++ toString username ++ ")")).

Definition addRefreshButtonLoading : Async unit :=
  emit EvAddRefreshButtonLoading.

Definition removeRefreshButtonLoading : Async unit :=
  emit EvRemoveRefreshButtonLoading.

(** The three state containers of the page; [true] is the class
    "hidden" on the container. *)
Record Panels : Type := mkPanels {
  loadingHidden : bool;
  errorHidden : bool;
  profileHidden : bool
}.

Definition hideAllStates (p : Panels) : Panels := mkPanels true true true.

(** What the call behind an event does to the containers:
    [showLoadingState], [showErrorState] and [showProfileCard] hide all
    three and reveal their own; no other method touches them. *)
Definition showState (e : Event) (p : Panels) : Panels :=
  match e with
  | EvShowLoadingState =>
      let p' := hideAllStates p in
      mkPanels false (errorHidden p') (profileHidden p')
  | EvShowErrorState _ =>
      let p' := hideAllStates p in
      mkPanels (loadingHidden p') false (profileHidden p')
  | EvShowProfileCard =>
      let p' := hideAllStates p in
      mkPanels (loadingHidden p') (errorHidden p') false
  | _ => p
  end.

(** The containers after the calls of a trace, from [p] on. *)
Definition panelsAfter (tr : list Event) (p : Panels) : Panels :=
  fold_left (fun p e => showState e p) tr p.

(** [cleanup] cancels the animation frames of [animateNumber] and clears
    their table; the events do not follow the frames. *)
Definition cleanup : Async unit := Ret tt.

End DomManager.

(* ================================================================== *)
(** ** js/app.js *)

Module ProfileCardApp.

Definition setLoadingState (isLoading : bool) : Async unit :=
  perform (SetIsLoading isLoading).

(** [this.currentUser.field], a TypeError when [this.currentUser] is
    [null]. *)
Definition currentUserField (field : UserRecord -> JsVal) (prop : string)
  : Async JsVal :=
  cu <- perform GetCurrentUser ;;
  match cu with
  | Some u => Ret (field u)
  | None =>
      Throw (ErrorObject "TypeError"
               ("Cannot read properties of null (reading '" ++ prop ++ "')"))
  end.

Definition handleError (error : Thrown) : Async unit :=
  match error with
  | ErrorObject _ message =>
      let errorMessage :=
        if truthy (JStr message) then message
        else "An unexpected error occurred. Please try again." in
      DomManager.showErrorState errorMessage ;;
      DomManager.showNotification errorMessage "error"
  | ThrownUndefined => Throw (readOfUndefined "message")
  end.

Definition loadRandomUser : Async unit :=
  loading <- perform GetIsLoading ;;
  if loading then Ret tt
  else
    setLoadingState true ;;
    DomManager.showLoadingState ;;
    finally
      (tryCatch
         (userData <- ApiService.fetchRandomUser ;;
          perform (SetCurrentUser (Some userData)) ;;
          DomManager.displayUserData userData ;;
          DomManager.showProfileCard ;;
          DomManager.showNotification
            ("Loaded profile for " ++ toString (name userData)) "success")
         (fun error =>
            emit (EvConsoleError "Error loading user:" error) ;;
            handleError error))
      (setLoadingState false).

Definition loadUser (username : JsVal) : Async unit :=
  loading <- perform GetIsLoading ;;
  if loading then Ret tt
  else if negb (ApiService.isValidUsername username) then
    DomManager.showErrorState "Please enter a valid username"
  else
    setLoadingState true ;;
    DomManager.showLoadingState ;;
    finally
      (tryCatch
         (userData <- ApiService.fetchUserData username ;;
          perform (SetCurrentUser (Some userData)) ;;
          DomManager.displayUserData userData ;;
          DomManager.showProfileCard ;;
          DomManager.showNotification
            ("Loaded profile for " ++ toString (name userData)) "success")
         (fun error =>
            emit (EvConsoleError "Error loading user:" error) ;;
            handleError error))
      (setLoadingState false).

Definition handleRefresh : Async unit :=
  loading <- perform GetIsLoading ;;
  if loading then Ret tt
  else
    DomManager.addRefreshButtonLoading ;;
    loadRandomUser ;;
    DomManager.removeRefreshButtonLoading.

Definition handleRetry : Async unit := loadRandomUser.

Definition handleFollow : Async unit :=
  cu <- perform GetCurrentUser ;;
  match cu with
  | None => Ret tt
  | Some _ =>
      isNowFollowing <- DomManager.toggleFollow ;;
      userName <- currentUserField name "name" ;;
      DomManager.showNotification
        (if isNowFollowing : bool
         then "Following " ++ toString userName ++ " successfully!"
         else "Unfollowed " ++ toString userName ++ " successfully!")
        "success"
  end.

Definition handleMessage : Async unit :=
  cu <- perform GetCurrentUser ;;
  match cu with
  | None => Ret tt
  | Some _ =>
      userName <- currentUserField name "name" ;;
      userHandle <- currentUserField username "username" ;;
      DomManager.showMessageModal userName userHandle
  end.

Definition refreshCurrentUser : Async unit :=
  cu <- perform GetCurrentUser ;;
  match cu with
  | None => loadRandomUser
  | Some _ =>
      tryCatch
        (handle <- currentUserField username "username" ;;
         userData <- ApiService.fetchUserData handle ;;
         perform (SetCurrentUser (Some userData)) ;;
         DomManager.displayUserData userData ;;
         DomManager.showNotification "Profile refreshed successfully!"
           "success")
        handleError
  end.

Definition getCurrentUser : Async (option UserRecord) :=
  perform GetCurrentUser.

Definition destroy : Async unit :=
  DomManager.cleanup ;;
  perform (SetCurrentUser None) ;;
  perform (SetIsLoading false).

End ProfileCardApp.

(* ================================================================== *)
(** ** Vocabulary of the statements *)

(** [`${this.baseUrl}/${username}`] *)
Definition requestUrl (handle : JsVal) : string :=
  ApiService.baseUrl ++ "/" ++ toString handle.

(** The body of [fetchUserData] after [await fetch(...)], once the
    request has settled with [out]. *)
Definition afterFetch (out : FetchOutcome) : Async UserRecord :=
  tryCatch
    (response <- match out with
                 | FetchRejected e => Throw e
                 | FetchResolved r => Ret r
                 end ;;
     (if negb (ok response) then ApiService.handleHttpError (status response)
      else Ret tt) ;;
     userData <- json response ;;
     Ret (ApiService.processUserData userData))
    ApiService.handleNetworkError.

(** What [fetchUserData] makes of a settled request: the record it
    returns or the error it throws.  Neither the handle nor the world
    bears on it. *)
Definition fetchUserData_outcome (out : FetchOutcome) : Outcome UserRecord :=
  snd (run (ApiService.fetchUserData JUndefined)
           (mkWorld None false false [] [] [out])).

(** The error a settled request makes [fetchUserData] throw, if any. *)
Definition failure (out : FetchOutcome) : option Thrown :=
  match fetchUserData_outcome out with
  | Raised e => Some e
  | _ => None
  end.

(** The test of the [catch] block of [fetchUserWithRetry]: the errors
    that are thrown on at once. *)
Definition dontRetry (e : Thrown) : bool :=
  match e with
  | ErrorObject _ message =>
      includes "not found" message || includes "rate limit" message
  | ThrownUndefined => false
  end.

Definition retryableFailure (out : FetchOutcome) : bool :=
  match failure out with
  | Some e => negb (dontRetry e)
  | None => false
  end.

(** Several events at once. *)
Definition logAll (evs : list Event) (w : World) : World :=
  mkWorld (currentUser w) (isLoading w) (followBtn w) (trace w ++ evs)
          (entropy w) (network w).

(** [k] failed attempts from [attempt] on, each followed by its wait. *)
Fixpoint backoffTrace (url : string) (attempt k : nat) : list Event :=
  match k with
  | O => []
  | S k' =>
      EvFetch url :: EvSetTimeout (2 ^ Z.of_nat attempt * 1000)
      :: backoffTrace url (S attempt) k'
  end.

(** The error of the last of the failed attempts [outs]. *)
Fixpoint lastFailure (outs : list FetchOutcome) (lastError : Thrown) : Thrown :=
  match outs with
  | [] => lastError
  | out :: rest =>
      lastFailure rest
        (match failure out with Some e => e | None => lastError end)
  end.

Definition total (delays : list Z) : Z := fold_right Z.add 0 delays.

Fixpoint occurs (c : ascii) (s : string) : bool :=
  match s with
  | EmptyString => false
  | String a rest => Ascii.eqb c a || occurs c rest
  end.

(** A field of the upstream body that holds text when it is there. *)
Definition textOrMissing (v : JsVal) : bool :=
  match v with
  | JUndefined | JNull | JStr _ => true
  | _ => false
  end.

Definition nonEmptyString (v : JsVal) : Prop :=
  exists s, v = JStr s /\ s <> "".

(** The draw the next [Math.random()] returns, and the world after it. *)
Definition nextDraw (w : World) : Double :=
  match entropy w with
  | r :: _ => r
  | [] => mkDouble 0 0
  end.

Definition afterDraw (w : World) : World :=
  match entropy w with
  | _ :: rest => set_entropy rest w
  | [] => w
  end.

(** A draw of [Math.random()]: a double below 1. *)
Definition unitDraw (r : Double) : Prop :=
  isDouble r /\ greater (mkDouble 1 0) r = true.

(** The world after the three draws of [updateStats]. *)
Definition statsDraws (w : World) : World :=
  afterDraw (afterDraw (afterDraw w)).

(** The handle [getRandomUsername] picks on the draw [r]. *)
Definition randomUsername (r : Double) : JsVal :=
  ApiService.element ApiService.usernames
    (floor (times r (ofCount (Z.of_nat (List.length ApiService.usernames))))).

(** The text [handleError] shows for an error of message [message]. *)
Definition shownMessage (message : string) : string :=
  if String.eqb message "" then
    "An unexpected error occurred. Please try again."
  else message.

(** The world once [handleError] has reported an error of message
    [message]. *)
Definition reported (message : string) (w : World) : World :=
  log (EvShowNotification (shownMessage message) "error")
      (log (EvShowErrorState (shownMessage message)) w).

(** The [try]/[catch]/[finally] statement that [loadRandomUser] and
    [loadUser] share, around their own request. *)
Definition loadBody (request : Async UserRecord) : Async unit :=
  finally
    (tryCatch
       (userData <- request ;;
        perform (SetCurrentUser (Some userData)) ;;
        DomManager.displayUserData userData ;;
        DomManager.showProfileCard ;;
        DomManager.showNotification
          ("Loaded profile for " ++ toString (name userData)) "success")
       (fun error =>
          emit (EvConsoleError "Error loading user:" error) ;;
          ProfileCardApp.handleError error))
    (ProfileCardApp.setLoadingState false).

(** [Math.random() > 0.5] on the draw [r]. *)
Definition followDraw (r : Double) : bool :=
  greater r (mkDouble 1 (-1)).

(** The blogs [updateWebsite] can render: the falsy ones, which hide the
    link, and the strings. *)
Definition blogRenders (v : JsVal) : bool := negb (truthy v) || isString v.

(** The events of [updateWebsite] on a blog it renders. *)
Definition websiteEvents (v : JsVal) : list Event :=
  match v with
  | JStr s =>
      if String.eqb s "" then [EvWebsiteHidden]
      else [EvWebsiteText s;
            EvWebsiteLink (if prefix "http" s then s else "https://" ++ s)]
  | _ => [EvWebsiteHidden]
  end.

(** The events of [displayUserData] on a record whose blog renders. *)
Definition displayEvents (u : UserRecord) : list Event :=
  ([EvUpdateBasicInfo u; EvUpdateStats u;
    EvUpdateContact
      (toString (js_or (email u) (JStr "Not available")))
      (toString (js_or (company u) (JStr "Not specified")))]
   ++ websiteEvents (blog u)
   ++ [EvUpdateJoinDate (joinDate u); EvUpdateBio u])%list.

(** What the page asks of the widget while a request is out: a click on
    one of the four buttons, or a call of one of the two guarded
    loads. *)
Inductive Ask : Type :=
| AskRefresh
| AskRetry
| AskFollow
| AskMessage
| AskLoadRandomUser
| AskLoadUser (handle : JsVal).

Definition handlerOf (a : Ask) : Async unit :=
  match a with
  | AskRefresh => ProfileCardApp.handleRefresh
  | AskRetry => ProfileCardApp.handleRetry
  | AskFollow => ProfileCardApp.handleFollow
  | AskMessage => ProfileCardApp.handleMessage
  | AskLoadRandomUser => ProfileCardApp.loadRandomUser
  | AskLoadUser handle => ProfileCardApp.loadUser handle
  end.

(** The handlers of a sequence of asks, called one after the other. *)
Fixpoint served (asks : list Ask) (w : World) : World :=
  match asks with
  | [] => w
  | a :: rest => served rest (fst (call (handlerOf a) w))
  end.

(** A count of the upstream body: a non-negative integer, or missing. *)
Definition countOrMissing (v : JsVal) : bool :=
  match v with
  | JUndefined | JNull => true
  | JNum z => 0 <=? z
  | _ => false
  end.

(* ================================================================== *)
(** ** Sample inputs *)

Module Sample.

(** A widget that has loaded nothing and is not loading. *)
Definition idle : World := mkWorld None false false [] [] [].

(** A body without any of the fields. *)
Definition emptyBody : RawUser :=
  mkRawUser JUndefined JUndefined JUndefined JUndefined JUndefined JUndefined
            JUndefined JUndefined JUndefined JUndefined JUndefined JUndefined
            JUndefined JUndefined.

(** The upstream record of [octocat], which has neither a bio nor an
    email. *)
Definition octocatBody : RawUser :=
  mkRawUser (JNum 583231) (JStr "octocat") (JStr "The Octocat")
            (JStr "https://avatars.githubusercontent.com/u/583231")
            JNull (JStr "San Francisco") JNull (JStr "@github")
            (JStr "https://github.blog") (JNum 100) (JNum 9) (JNum 8)
            (JStr "2011-01-25T18:44:36Z") (JStr "https://github.com/octocat").

Definition octocat : UserRecord := ApiService.processUserData octocatBody.

(** A response with the given status. *)
Definition http (status : Z) (data : RawUser) : FetchOutcome :=
  FetchResolved (mkResponse status (JsonParsed data)).

(** The rejection of [fetch] when the host cannot be reached. *)
Definition unreachable : FetchOutcome :=
  FetchRejected (ErrorObject "TypeError" "Failed to fetch").

(** A widget showing [octocat] while another load is in flight. *)
Definition reloading : World := mkWorld (Some octocat) true false [] [] [].

(** A widget showing [octocat], at rest; the next draw of
    [Math.random()] is 1/32. *)
Definition showing : World :=
  mkWorld (Some octocat) false false [] [mkDouble 1 (-5)] [].

(** A body whose blog is a number. *)
Definition oddBody : RawUser :=
  mkRawUser (JNum 1) (JStr "odd") JUndefined JUndefined JUndefined JUndefined
            JUndefined JUndefined (JNum 42) JUndefined JUndefined JUndefined
            JUndefined JUndefined.

End Sample.

(* ================================================================== *)
(** ** Running method bodies *)

Section Interp.

Variable m : Mode.

Lemma interp_bind {A B : Type} (t : Async A) (f : A -> Async B) (w : World) :
  interp m (bind t f) w =
  match interp m t w with
  | (w', Returned a) => interp m (f a) w'
  | (w', Raised e) => (w', Raised e)
  | (w', Pending o k) => (w', Pending o (fun x => bind (k x) f))
  end.
Proof.
  revert w. induction t as [a | e | o k IH]; intros w; simpl; try reflexivity.
  destruct (step m o w) as [w' [x |]]; [apply IH | reflexivity].
Qed.

Lemma interp_tryCatch {A : Type} (t : Async A) (h : Thrown -> Async A)
    (w : World) :
  interp m (tryCatch t h) w =
  match interp m t w with
  | (w', Returned a) => (w', Returned a)
  | (w', Raised e) => interp m (h e) w'
  | (w', Pending o k) => (w', Pending o (fun x => tryCatch (k x) h))
  end.
Proof.
  revert w. induction t as [a | e | o k IH]; intros w; simpl; try reflexivity.
  destruct (step m o w) as [w' [x |]]; [apply IH | reflexivity].
Qed.

Lemma interp_finally {A : Type} (t : Async A) (f : Async unit) (w : World) :
  interp m (finally t f) w =
  match interp m t w with
  | (w', Returned a) => interp m (bind f (fun _ => Ret a)) w'
  | (w', Raised e) => interp m (bind f (fun _ => Throw e)) w'
  | (w', Pending o k) => (w', Pending o (fun x => finally (k x) f))
  end.
Proof.
  revert w. induction t as [a | e | o k IH]; intros w; simpl; try reflexivity.
  destruct (step m o w) as [w' [x |]]; [apply IH | reflexivity].
Qed.

Lemma interp_GetIsLoading (w : World) :
  interp m (perform GetIsLoading) w = (w, Returned (isLoading w)).
Proof. reflexivity. Qed.

Lemma interp_GetCurrentUser (w : World) :
  interp m (perform GetCurrentUser) w = (w, Returned (currentUser w)).
Proof. reflexivity. Qed.

(** The events of a world are never taken back. *)
Lemma step_trace_grows (o : Op) (w : World) :
  exists tail, trace (fst (step m o w)) = (trace w ++ tail)%list.
Proof.
  destruct o; simpl;
    try (exists []; now rewrite app_nil_r);
    try (eexists; reflexivity).
  - destruct (entropy w); exists []; simpl; now rewrite app_nil_r.
  - destruct m; [eexists; reflexivity |].
    destruct (network w); eexists; reflexivity.
  - destruct m; eexists; reflexivity.
Qed.

Lemma interp_trace_grows {A : Type} (t : Async A) :
  forall w, exists tail, trace (fst (interp m t w)) = (trace w ++ tail)%list.
Proof.
  induction t as [a | e | o k IH]; intros w; simpl;
    try (exists []; now rewrite app_nil_r).
  destruct (step_trace_grows o w) as [t1 H1].
  destruct (step m o w) as [w' [x |]]; simpl in *.
  - destruct (IH x w') as [t2 H2]. exists (t1 ++ t2)%list.
    now rewrite H2, H1, app_assoc.
  - now exists t1.
Qed.

End Interp.

Lemma fetches_app (tr1 tr2 : list Event) :
  fetches (tr1 ++ tr2) = (fetches tr1 ++ fetches tr2)%list.
Proof.
  induction tr1 as [| ev tr1 IH]; simpl; [reflexivity |].
  destruct ev; simpl; rewrite ?IH; reflexivity.
Qed.

Lemma timeouts_app (tr1 tr2 : list Event) :
  timeouts (tr1 ++ tr2) = (timeouts tr1 ++ timeouts tr2)%list.
Proof.
  induction tr1 as [| ev tr1 IH]; simpl; [reflexivity |].
  destruct ev; simpl; rewrite ?IH; reflexivity.
Qed.

Lemma world_eta (w : World) :
  set_network (network w) (logAll [] w) = w.
Proof.
  destruct w; unfold set_network, logAll; simpl. now rewrite app_nil_r.
Qed.

(** A draw changes nothing but the draws left. *)
Lemma afterDraw_currentUser (w : World) :
  currentUser (afterDraw w) = currentUser w.
Proof. unfold afterDraw. now destruct (entropy w). Qed.

Lemma afterDraw_isLoading (w : World) :
  isLoading (afterDraw w) = isLoading w.
Proof. unfold afterDraw. now destruct (entropy w). Qed.

Lemma afterDraw_trace (w : World) : trace (afterDraw w) = trace w.
Proof. unfold afterDraw. now destruct (entropy w). Qed.

Lemma afterDraw_network (w : World) : network (afterDraw w) = network w.
Proof. unfold afterDraw. now destruct (entropy w). Qed.

Create Rewrite HintDb world.
#[local] Hint Rewrite afterDraw_currentUser afterDraw_isLoading afterDraw_trace
  afterDraw_network fetches_app timeouts_app app_nil_r : world.

(* ================================================================== *)
(** ** One request *)

Lemma fetchUserData_unfold (handle : JsVal) :
  ApiService.fetchUserData handle = Do (Fetch (requestUrl handle)) afterFetch.
Proof. reflexivity. Qed.

(** The cases of [handleNetworkError] on a name and a message. *)
Ltac network_error_cases n msg :=
  destruct (String.eqb n "TypeError" && includes "fetch" msg).

Lemma interp_afterFetch (m : Mode) (out : FetchOutcome) (w : World) :
  interp m (afterFetch out) w = (w, fetchUserData_outcome out).
Proof.
  unfold fetchUserData_outcome, run, afterFetch. simpl.
  destruct out as [e | r]; simpl.
  - destruct e as [n msg |]; simpl; [| reflexivity].
    network_error_cases n msg; reflexivity.
  - destruct (ok r); simpl.
    + unfold json. destruct (body r) as [e | data]; simpl; [| reflexivity].
      destruct e as [n msg |]; simpl; [| reflexivity].
      network_error_cases n msg; reflexivity.
    + unfold ApiService.handleHttpError.
      destruct (status r =? 404); [reflexivity |].
      destruct (status r =? 403); [reflexivity |].
      destruct (status r =? 500); reflexivity.
Qed.

(** Run alone, [fetchUserData] sends its one request and makes of the
    outcome what [fetchUserData_outcome] says. *)
Lemma run_fetchUserData (handle : JsVal) (w : World) (out : FetchOutcome)
    (rest : list FetchOutcome) :
  network w = out :: rest ->
  run (ApiService.fetchUserData handle) w =
  (set_network rest (log (EvFetch (requestUrl handle)) w),
   fetchUserData_outcome out).
Proof.
  intros Hnet. unfold run. rewrite fetchUserData_unfold. simpl.
  rewrite Hnet. apply interp_afterFetch.
Qed.

Lemma run_fetchUserData_offline (handle : JsVal) (w : World) :
  network w = [] ->
  run (ApiService.fetchUserData handle) w =
  (log (EvFetch (requestUrl handle)) w,
   Pending (Fetch (requestUrl handle)) afterFetch).
Proof.
  intros Hnet. unfold run. rewrite fetchUserData_unfold. simpl.
  now rewrite Hnet.
Qed.

(** Called, [fetchUserData] sends its request and is suspended. *)
Lemma call_fetchUserData (handle : JsVal) (w : World) :
  call (ApiService.fetchUserData handle) w =
  (log (EvFetch (requestUrl handle)) w,
   Pending (Fetch (requestUrl handle)) afterFetch).
Proof. reflexivity. Qed.

Lemma settle_afterFetch (url : string) (out : FetchOutcome) (w : World) :
  settle (Pending (Fetch url) afterFetch) out w =
  (w, fetchUserData_outcome out).
Proof. apply interp_afterFetch. Qed.

(** A settled request makes [fetchUserData] return a record or throw an
    error object. *)
Lemma fetchUserData_outcome_cases (out : FetchOutcome) :
  (exists u, fetchUserData_outcome out = Returned u)
  \/ (exists n msg, fetchUserData_outcome out = Raised (ErrorObject n msg)).
Proof.
  unfold fetchUserData_outcome, run. simpl.
  destruct out as [e | r]; simpl.
  - right. destruct e as [n msg |]; simpl.
    + network_error_cases n msg; simpl; unfold Error; eauto.
    + unfold readOfUndefined. eauto.
  - destruct (ok r); simpl.
    + unfold json. destruct (body r) as [e | data]; simpl; [| left; eauto].
      right. destruct e as [n msg |]; simpl.
      * network_error_cases n msg; simpl; unfold Error; eauto.
      * unfold readOfUndefined. eauto.
    + right. unfold ApiService.handleHttpError.
      destruct (status r =? 404); [simpl; unfold Error; eauto |].
      destruct (status r =? 403); [simpl; unfold Error; eauto |].
      destruct (status r =? 500); simpl; unfold Error; eauto.
Qed.

Lemma failure_error_object (out : FetchOutcome) (e : Thrown) :
  failure out = Some e -> exists n msg, e = ErrorObject n msg.
Proof.
  unfold failure.
  destruct (fetchUserData_outcome_cases out) as [[u H] | [n [msg H]]];
    rewrite H; intros E; inversion E; eauto.
Qed.

Lemma failure_outcome (out : FetchOutcome) (e : Thrown) :
  failure out = Some e -> fetchUserData_outcome out = Raised e.
Proof.
  unfold failure. destruct (fetchUserData_outcome out); congruence.
Qed.

(* ================================================================== *)
(** ** The retry loop *)

(** A failed attempt that is not the last: the request, the wait, and the
    loop goes on with the next attempt. *)
Lemma retryLoop_step (username : JsVal) (maxRetries fuel attempt : nat)
    (lastError e : Thrown) (w : World) (out : FetchOutcome)
    (rest : list FetchOutcome) :
  network w = out :: rest ->
  failure out = Some e ->
  dontRetry e = false ->
  (attempt < maxRetries)%nat ->
  run (ApiService.retryLoop username maxRetries (S fuel) attempt lastError) w =
  run (ApiService.retryLoop username maxRetries fuel (S attempt) e)
      (set_network rest
         (logAll (backoffTrace (requestUrl username) attempt 1) w)).
Proof.
  intros Hnet Hfail Hretry Hlt.
  destruct (failure_error_object _ _ Hfail) as [n [msg ->]].
  apply failure_outcome in Hfail.
  unfold run. cbn [ApiService.retryLoop].
  assert (Hle : (attempt <=? maxRetries)%nat = true)
    by (apply Nat.leb_le; lia).
  rewrite Hle, interp_tryCatch.
  fold (run (ApiService.fetchUserData username) w).
  rewrite (run_fetchUserData _ _ _ _ Hnet), Hfail.
  simpl in Hretry. rewrite Hretry.
  assert (Hltb : (attempt <? maxRetries)%nat = true)
    by (apply Nat.ltb_lt; lia).
  rewrite Hltb. cbn [sleep perform bind interp step].
  f_equal. unfold set_network, logAll, log. simpl.
  rewrite <- app_assoc. reflexivity.
Qed.

Lemma retryLoop_prefix (username : JsVal) (maxRetries : nat) :
  forall (outs : list FetchOutcome) (fuel attempt : nat) (lastError : Thrown)
         (w : World) (rest : list FetchOutcome),
    network w = (outs ++ rest)%list ->
    forallb retryableFailure outs = true ->
    (attempt + List.length outs <= maxRetries)%nat ->
    run (ApiService.retryLoop username maxRetries (List.length outs + fuel)
           attempt lastError) w =
    run (ApiService.retryLoop username maxRetries fuel
           (attempt + List.length outs) (lastFailure outs lastError))
        (set_network rest
           (logAll (backoffTrace (requestUrl username) attempt
                      (List.length outs)) w)).
Proof.
  induction outs as [| out outs IH];
    intros fuel attempt lastError w rest Hnet Hall Hlen.
  - simpl in *. rewrite Nat.add_0_r, <- Hnet, world_eta. reflexivity.
  - simpl in Hall, Hlen, Hnet. apply andb_prop in Hall as [Hout Hall].
    unfold retryableFailure in Hout.
    destruct (failure out) as [e |] eqn:Hfail; [| discriminate].
    apply negb_true_iff in Hout.
    cbn [List.length Nat.add].
    rewrite (retryLoop_step _ _ _ _ _ e _ _ _ Hnet Hfail Hout) by lia.
    rewrite (IH fuel (S attempt) e _ rest); [| reflexivity | assumption | lia].
    cbn [lastFailure]. rewrite Hfail.
    replace (S attempt + List.length outs)%nat
      with (attempt + S (List.length outs))%nat by lia.
    f_equal. unfold set_network, logAll. simpl.
    rewrite <- app_assoc. reflexivity.
Qed.

(** An attempt that fails with an error the [catch] block throws on. *)
Lemma retryLoop_terminal (username : JsVal) (maxRetries fuel attempt : nat)
    (lastError e : Thrown) (w : World) (out : FetchOutcome)
    (rest : list FetchOutcome) :
  network w = out :: rest ->
  failure out = Some e ->
  dontRetry e = true ->
  (attempt <= maxRetries)%nat ->
  run (ApiService.retryLoop username maxRetries (S fuel) attempt lastError) w =
  (set_network rest (log (EvFetch (requestUrl username)) w), Raised e).
Proof.
  intros Hnet Hfail Hstop Hle.
  destruct (failure_error_object _ _ Hfail) as [n [msg ->]].
  apply failure_outcome in Hfail.
  unfold run. cbn [ApiService.retryLoop].
  apply Nat.leb_le in Hle. rewrite Hle, interp_tryCatch.
  fold (run (ApiService.fetchUserData username) w).
  rewrite (run_fetchUserData _ _ _ _ Hnet), Hfail.
  simpl in Hstop. rewrite Hstop. reflexivity.
Qed.

(** The last attempt: whatever error it fails with is thrown, and no
    wait follows. *)
Lemma retryLoop_last (username : JsVal) (maxRetries fuel : nat)
    (lastError e : Thrown) (w : World) (out : FetchOutcome)
    (rest : list FetchOutcome) :
  network w = out :: rest ->
  failure out = Some e ->
  run (ApiService.retryLoop username maxRetries (S fuel) maxRetries lastError) w =
  (set_network rest (log (EvFetch (requestUrl username)) w), Raised e).
Proof.
  intros Hnet Hfail.
  destruct (dontRetry e) eqn:Hstop.
  - now apply (retryLoop_terminal _ _ _ _ _ e _ out).
  - destruct (failure_error_object _ _ Hfail) as [n [msg ->]].
    apply failure_outcome in Hfail.
    unfold run. cbn [ApiService.retryLoop].
    rewrite Nat.leb_refl, interp_tryCatch.
    fold (run (ApiService.fetchUserData username) w).
    rewrite (run_fetchUserData _ _ _ _ Hnet), Hfail.
    simpl in Hstop. rewrite Hstop, Nat.ltb_irrefl.
    cbn [bind]. destruct fuel as [| fuel]; cbn [ApiService.retryLoop].
    + reflexivity.
    + assert (H : (S maxRetries <=? maxRetries)%nat = false)
        by (apply Nat.leb_gt; lia).
      rewrite H. reflexivity.
Qed.

(** An attempt that succeeds. *)
Lemma retryLoop_success (username : JsVal) (maxRetries fuel attempt : nat)
    (lastError : Thrown) (u : UserRecord) (w : World) (out : FetchOutcome)
    (rest : list FetchOutcome) :
  network w = out :: rest ->
  fetchUserData_outcome out = Returned u ->
  (attempt <= maxRetries)%nat ->
  run (ApiService.retryLoop username maxRetries (S fuel) attempt lastError) w =
  (set_network rest (log (EvFetch (requestUrl username)) w), Returned u).
Proof.
  intros Hnet Hout Hle.
  unfold run. cbn [ApiService.retryLoop].
  apply Nat.leb_le in Hle. rewrite Hle, interp_tryCatch.
  fold (run (ApiService.fetchUserData username) w).
  rewrite (run_fetchUserData _ _ _ _ Hnet), Hout. reflexivity.
Qed.

(** However the requests settle, the loop sends no more of them than it
    has iterations left. *)
Lemma retryLoop_bound (username : JsVal) (maxRetries : nat) :
  forall (fuel attempt : nat) (lastError : Thrown) (w : World),
    (List.length
       (fetches
          (trace
             (fst (run (ApiService.retryLoop username maxRetries fuel attempt
                          lastError) w))))
     <= List.length (fetches (trace w)) + fuel)%nat.
Proof.
  induction fuel as [| fuel IH]; intros attempt lastError w.
  - simpl. lia.
  - unfold run. cbn [ApiService.retryLoop].
    destruct (attempt <=? maxRetries)%nat; [| simpl; lia].
    rewrite interp_tryCatch.
    fold (run (ApiService.fetchUserData username) w).
    destruct (network w) as [| out rest] eqn:Hnet.
    + rewrite (run_fetchUserData_offline username w Hnet).
      simpl. rewrite fetches_app, length_app. simpl. lia.
    + rewrite (run_fetchUserData _ _ _ _ Hnet).
      destruct (fetchUserData_outcome out) as [u | e | o k];
        try (simpl; rewrite fetches_app, length_app; simpl; lia).
      destruct e as [n msg |];
        [| simpl; rewrite fetches_app, length_app; simpl; lia].
      destruct (includes "not found" msg || includes "rate limit" msg);
        [simpl; rewrite fetches_app, length_app; simpl; lia |].
      destruct (attempt <? maxRetries)%nat;
        cbn [sleep perform bind interp step];
        (eapply Nat.le_trans; [apply IH |]);
        simpl; rewrite ?fetches_app, ?length_app; simpl; lia.
Qed.

(* ================================================================== *)
(** ** Which failures the retry loop gives up on *)

Lemma prefix_occurs (c : ascii) (p : string) :
  forall s, prefix p s = true -> occurs c p = true -> occurs c s = true.
Proof.
  induction p as [| a p IH]; intros s Hp Hc; [discriminate |].
  destruct s as [| b s]; [discriminate |].
  simpl in Hp. destruct (ascii_dec a b) as [-> |]; [| discriminate].
  simpl in *. apply orb_true_iff in Hc as [Hc | Hc].
  - now rewrite Hc.
  - rewrite (IH s Hp Hc). apply orb_true_r.
Qed.

Lemma includes_occurs (c : ascii) (p s : string) :
  includes p s = true -> occurs c p = true -> occurs c s = true.
Proof.
  intros Hi Hc. induction s as [| b s IH].
  - simpl in Hi. destruct p; [discriminate | discriminate].
  - cbn [includes] in Hi. apply orb_true_iff in Hi as [Hi | Hi].
    + now apply (prefix_occurs c p).
    + simpl. rewrite (IH Hi). apply orb_true_r.
Qed.

Lemma occurs_append (c : ascii) (s1 s2 : string) :
  occurs c (s1 ++ s2) = occurs c s1 || occurs c s2.
Proof.
  induction s1 as [| a s1 IH]; simpl; [reflexivity |].
  now rewrite IH, orb_assoc.
Qed.

(** A decimal numeral is made of digits and a sign. *)
Lemma occurs_decimal (c : ascii) (z : Z) :
  occurs c "-0123456789" = false ->
  occurs c (toString (JNum z)) = false.
Proof.
  intros Hc. simpl in Hc.
  repeat (apply orb_false_iff in Hc as [? Hc]).
  assert (Hu : forall d, occurs c (NilEmpty.string_of_uint d) = false).
  { induction d; simpl; rewrite ?IHd; rewrite ?orb_false_r; auto. }
  assert (Hz : forall d, occurs c (NilZero.string_of_uint d) = false).
  { destruct d; try apply Hu. simpl. now rewrite orb_false_r. }
  unfold toString. destruct (Z.to_int z); simpl; rewrite Hz;
    rewrite ?orb_false_r; auto.
Qed.

Lemma httpError_retried (status : Z) :
  dontRetry
    (Error ("HTTP error! status: " ++ toString (JNum status))) = false.
Proof.
  unfold dontRetry, Error. apply orb_false_iff. split.
  - destruct (includes "not found" _) eqn:H; [| reflexivity].
    apply (includes_occurs "n") in H; [| reflexivity].
    rewrite occurs_append, occurs_decimal in H by reflexivity.
    discriminate.
  - destruct (includes "rate limit" _) eqn:H; [| reflexivity].
    apply (includes_occurs "l") in H; [| reflexivity].
    rewrite occurs_append, occurs_decimal in H by reflexivity.
    discriminate.
Qed.

(** The failures by origin: an HTTP status outside 200-299 is thrown on
    at once when it is 404 or 403 and retried otherwise; a rejected
    request that [handleNetworkError] recognises is retried. *)
Lemma failure_http (status : Z) (b : JsonBody) :
  ok (mkResponse status b) = false ->
  exists e,
    failure (FetchResolved (mkResponse status b)) = Some e
    /\ dontRetry e = ((status =? 404) || (status =? 403)).
Proof.
  intros Hok. unfold failure, fetchUserData_outcome, run. simpl.
  rewrite Hok. simpl. unfold ApiService.handleHttpError.
  destruct (status =? 404); [eexists; split; reflexivity |].
  destruct (status =? 403); [eexists; split; reflexivity |].
  destruct (status =? 500); [eexists; split; reflexivity |].
  eexists; split; [reflexivity |]. apply httpError_retried.
Qed.

Lemma failure_network (message : string) :
  includes "fetch" message = true ->
  failure (FetchRejected (ErrorObject "TypeError" message))
  = Some (Error "Network error. Please check your internet connection.")
  /\ dontRetry
       (Error "Network error. Please check your internet connection.")
     = false.
Proof.
  intros H. unfold failure, fetchUserData_outcome, run. simpl.
  rewrite H. split; reflexivity.
Qed.

(* ================================================================== *)
(** ** The trace of the retry loop *)

Lemma backoffTrace_flat_map (url : string) :
  forall k attempt,
    backoffTrace url attempt k =
    flat_map (fun j => [EvFetch url; EvSetTimeout (2 ^ Z.of_nat j * 1000)])
             (seq attempt k).
Proof.
  induction k as [| k IH]; intros attempt; simpl; [reflexivity |].
  now rewrite IH.
Qed.

Lemma timeouts_backoffTrace (url : string) :
  forall k attempt,
    timeouts (backoffTrace url attempt k) =
    map (fun j => 2 ^ Z.of_nat j * 1000) (seq attempt k).
Proof.
  induction k as [| k IH]; intros attempt; simpl; [reflexivity |].
  now rewrite IH.
Qed.

Lemma fetches_backoffTrace (url : string) :
  forall k attempt,
    List.length (fetches (backoffTrace url attempt k)) = k.
Proof.
  induction k as [| k IH]; intros attempt; simpl; [reflexivity |].
  now rewrite IH.
Qed.

Lemma total_app (l1 l2 : list Z) : total (l1 ++ l2) = total l1 + total l2.
Proof.
  unfold total. induction l1 as [| x l1 IH]; simpl; [reflexivity |].
  rewrite IH. lia.
Qed.

Lemma total_backoff :
  forall k attempt,
    total (map (fun j => 2 ^ Z.of_nat j * 1000) (seq attempt k)) =
    (2 ^ Z.of_nat (attempt + k) - 2 ^ Z.of_nat attempt) * 1000.
Proof.
  induction k as [| k IH]; intros attempt.
  - simpl. rewrite Nat.add_0_r. lia.
  - cbn [seq map total fold_right]. fold (total (map (fun j => 2 ^ Z.of_nat j * 1000) (seq (S attempt) k))).
    rewrite IH.
    replace (S attempt + k)%nat with (attempt + S k)%nat by lia.
    rewrite (Nat2Z.inj_succ attempt), Z.pow_succ_r by lia. lia.
Qed.

(** All attempts up to the last one fail and are retried; the last one
    fails with [e]. *)
Lemma fetchUserWithRetry_exhausted (username : JsVal) (n : nat) (w : World)
    (outs : list FetchOutcome) (out : FetchOutcome) (rest : list FetchOutcome)
    (e : Thrown) :
  network w = (outs ++ out :: rest)%list ->
  forallb retryableFailure outs = true ->
  S (List.length outs) = n ->
  failure out = Some e ->
  run (ApiService.fetchUserWithRetry username n) w =
  (set_network rest
     (logAll (backoffTrace (requestUrl username) 1 (List.length outs)
              ++ [EvFetch (requestUrl username)]) w),
   Raised e).
Proof.
  intros Hnet Hall Hn Hfail. unfold ApiService.fetchUserWithRetry.
  replace n with (List.length outs + 1)%nat at 2 by lia.
  rewrite (retryLoop_prefix _ _ outs 1 1 _ w (out :: rest) Hnet Hall) by lia.
  replace (1 + List.length outs)%nat with n by lia.
  rewrite (retryLoop_last _ _ _ _ e _ out rest); [| reflexivity | assumption].
  f_equal. unfold set_network, logAll, log. simpl.
  now rewrite <- app_assoc.
Qed.

(** Some attempt fails with an error the loop gives up on. *)
Lemma fetchUserWithRetry_gives_up (username : JsVal) (n : nat) (w : World)
    (outs : list FetchOutcome) (out : FetchOutcome) (rest : list FetchOutcome)
    (e : Thrown) :
  network w = (outs ++ out :: rest)%list ->
  forallb retryableFailure outs = true ->
  (List.length outs < n)%nat ->
  failure out = Some e ->
  dontRetry e = true ->
  run (ApiService.fetchUserWithRetry username n) w =
  (set_network rest
     (logAll (backoffTrace (requestUrl username) 1 (List.length outs)
              ++ [EvFetch (requestUrl username)]) w),
   Raised e).
Proof.
  intros Hnet Hall Hn Hfail Hstop. unfold ApiService.fetchUserWithRetry.
  replace n with (List.length outs + S (n - List.length outs - 1))%nat at 2
    by lia.
  rewrite (retryLoop_prefix _ _ outs _ 1 _ w (out :: rest) Hnet Hall) by lia.
  rewrite (retryLoop_terminal _ _ _ _ _ e _ out rest);
    [| reflexivity | assumption | assumption | lia].
  f_equal. unfold set_network, logAll, log. simpl.
  now rewrite <- app_assoc.
Qed.

(** An iteration of the loop starts with its request. *)
Lemma retryLoop_request_first (username : JsVal) (maxRetries fuel attempt : nat)
    (lastError : Thrown) (w : World) :
  (attempt <= maxRetries)%nat ->
  exists tail,
    trace (fst (run (ApiService.retryLoop username maxRetries (S fuel) attempt
                       lastError) w))
    = (trace w ++ EvFetch (requestUrl username) :: tail)%list.
Proof.
  intros Hle. unfold run. cbn [ApiService.retryLoop].
  apply Nat.leb_le in Hle. rewrite Hle, interp_tryCatch.
  fold (run (ApiService.fetchUserData username) w).
  destruct (network w) as [| out rest] eqn:Hnet.
  - rewrite (run_fetchUserData_offline username w Hnet).
    exists []. reflexivity.
  - rewrite (run_fetchUserData _ _ _ _ Hnet).
    destruct (fetchUserData_outcome out) as [u | e | o k];
      try (exists []; reflexivity).
    match goal with
    | |- context [interp ?m ?t ?w'] =>
        destruct (interp_trace_grows m t w') as [tail Ht]
    end.
    exists tail. rewrite Ht. simpl. now rewrite <- app_assoc.
Qed.

Lemma fetchUserWithRetry_gaps (username : JsVal) (n : nat) (w : World)
    (outs rest : list FetchOutcome) :
  network w = (outs ++ rest)%list ->
  forallb retryableFailure outs = true ->
  (List.length outs < n)%nat ->
  exists tail,
    trace (fst (run (ApiService.fetchUserWithRetry username n) w))
    = (trace w ++ backoffTrace (requestUrl username) 1 (List.length outs)
         ++ EvFetch (requestUrl username) :: tail)%list.
Proof.
  intros Hnet Hall Hn. unfold ApiService.fetchUserWithRetry.
  pose proof (retryLoop_prefix username n outs (S (n - List.length outs - 1))
                1 ThrownUndefined w rest Hnet Hall) as Hrun.
  replace (List.length outs + S (n - List.length outs - 1))%nat with n
    in Hrun by lia.
  rewrite Hrun by lia. clear Hrun.
  match goal with
  | |- context [run (ApiService.retryLoop ?u ?mx (S ?f) ?a ?l) ?w'] =>
      destruct (retryLoop_request_first u mx f a l w') as [tail Ht]; [lia |]
  end.
  exists tail. rewrite Ht. simpl. now rewrite <- app_assoc.
Qed.

(* ================================================================== *)
(** ** Running the controller *)

Lemma interp_currentUserField (m : Mode) (field : UserRecord -> JsVal)
    (prop : string) (w : World) (u : UserRecord) :
  currentUser w = Some u ->
  interp m (ProfileCardApp.currentUserField field prop) w =
  (w, Returned (field u)).
Proof.
  intros H. unfold ProfileCardApp.currentUserField.
  rewrite interp_bind, interp_GetCurrentUser, H. reflexivity.
Qed.

Lemma interp_fetchRandomUser (m : Mode) (w : World) :
  interp m ApiService.fetchRandomUser w =
  interp m (ApiService.fetchUserData (randomUsername (nextDraw w)))
         (afterDraw w).
Proof.
  unfold ApiService.fetchRandomUser, ApiService.getRandomUsername.
  rewrite interp_bind. unfold nextDraw, afterDraw. simpl.
  destruct (entropy w); reflexivity.
Qed.

Lemma interp_handleError (m : Mode) (n message : string) (w : World) :
  interp m (ProfileCardApp.handleError (ErrorObject n message)) w =
  (reported message w, Returned tt).
Proof.
  unfold reported, shownMessage. simpl.
  destruct (String.eqb message ""); reflexivity.
Qed.

Lemma loadRandomUser_unfold :
  ProfileCardApp.loadRandomUser =
  (loading <- perform GetIsLoading ;;
   if loading then Ret tt
   else ProfileCardApp.setLoadingState true ;;
        DomManager.showLoadingState ;;
        loadBody ApiService.fetchRandomUser).
Proof. reflexivity. Qed.

Lemma loadUser_unfold (handle : JsVal) :
  ProfileCardApp.loadUser handle =
  (loading <- perform GetIsLoading ;;
   if loading then Ret tt
   else if negb (ApiService.isValidUsername handle) then
     DomManager.showErrorState "Please enter a valid username"
   else ProfileCardApp.setLoadingState true ;;
        DomManager.showLoadingState ;;
        loadBody (ApiService.fetchUserData handle)).
Proof. reflexivity. Qed.

(** The request of a load fails: the error is logged and reported, and
    the loading flag is lowered. *)
Lemma loadBody_failure (m : Mode) (request : Async UserRecord)
    (w1 w2 : World) (n message : string) :
  interp m request w1 = (w2, Raised (ErrorObject n message)) ->
  interp m (loadBody request) w1 =
  (set_isLoading false
     (reported message
        (log (EvConsoleError "Error loading user:" (ErrorObject n message))
             w2)),
   Returned tt).
Proof.
  intros Hreq. unfold loadBody.
  rewrite interp_finally, interp_tryCatch, interp_bind, Hreq.
  rewrite interp_bind. cbn [emit perform bind interp step].
  rewrite interp_handleError. reflexivity.
Qed.

(** The request of a load is awaited: so is the load. *)
Lemma loadBody_pending (m : Mode) (request : Async UserRecord)
    (w1 w2 : World) (o : Op) (k : answer o -> Async UserRecord) :
  interp m request w1 = (w2, Pending o k) ->
  interp m (loadBody request) w1 =
  (w2, Pending o (fun x => loadBody (k x))).
Proof.
  intros Hreq. unfold loadBody.
  rewrite interp_finally, interp_tryCatch, interp_bind, Hreq. reflexivity.
Qed.

(** A draw of [Math.random()]. *)
Lemma interp_MathRandom (m : Mode) (w : World) :
  interp m (perform MathRandom) w = (afterDraw w, Returned (nextDraw w)).
Proof.
  unfold nextDraw, afterDraw. simpl. now destruct (entropy w).
Qed.

Lemma interp_emit (m : Mode) (e : Event) (w : World) :
  interp m (emit e) w = (log e w, Returned tt).
Proof. reflexivity. Qed.

(** [updateStats] starts three animations, each with a draw of its
    own. *)
Lemma interp_updateStats (m : Mode) (u : UserRecord) (w : World) :
  interp m (DomManager.updateStats u) w =
  (statsDraws (log (EvUpdateStats u) w), Returned tt).
Proof.
  assert (Hone : forall v w0,
            interp m (DomManager.animateNumber v) w0
            = (afterDraw w0, Returned tt))
    by (intros v w0; unfold DomManager.animateNumber;
        now rewrite interp_bind, interp_MathRandom).
  unfold DomManager.updateStats, statsDraws.
  rewrite interp_bind, interp_emit. cbv beta iota.
  rewrite interp_bind, Hone. cbv beta iota.
  rewrite interp_bind, Hone. cbv beta iota.
  apply Hone.
Qed.

Lemma interp_updateFollowButton (m : Mode) (w : World) :
  interp m DomManager.updateFollowButton w =
  (set_followBtn (followDraw (nextDraw w)) (afterDraw w), Returned tt).
Proof.
  unfold DomManager.updateFollowButton.
  now rewrite interp_bind, interp_MathRandom.
Qed.

Lemma statsDraws_currentUser (w : World) :
  currentUser (statsDraws w) = currentUser w.
Proof. unfold statsDraws. now rewrite !afterDraw_currentUser. Qed.

Lemma statsDraws_isLoading (w : World) :
  isLoading (statsDraws w) = isLoading w.
Proof. unfold statsDraws. now rewrite !afterDraw_isLoading. Qed.

Lemma statsDraws_trace (w : World) : trace (statsDraws w) = trace w.
Proof. unfold statsDraws. now rewrite !afterDraw_trace. Qed.

Lemma statsDraws_network (w : World) : network (statsDraws w) = network w.
Proof. unfold statsDraws. now rewrite !afterDraw_network. Qed.

(** [displayUserData], up to the website of the record. *)
Lemma displayUserData_unfold (m : Mode) (u : UserRecord) (w : World) :
  interp m (DomManager.displayUserData u) w =
  interp m (DomManager.updateDetails u ;;
            DomManager.updateBio u ;;
            DomManager.updateFollowButton)
         (statsDraws (log (EvUpdateStats u) (log (EvUpdateBasicInfo u) w))).
Proof.
  unfold DomManager.displayUserData, DomManager.updateBasicInfo.
  rewrite interp_bind, interp_emit.
  now rewrite interp_bind, interp_updateStats.
Qed.

(** On a record whose blog is text or missing, [displayUserData]
    returns; it touches neither the controller nor the network. *)
Lemma displayUserData_returns (m : Mode) (u : UserRecord) (w : World) :
  textOrMissing (blog u) = true ->
  exists w',
    interp m (DomManager.displayUserData u) w = (w', Returned tt)
    /\ currentUser w' = currentUser w
    /\ isLoading w' = isLoading w
    /\ network w' = network w.
Proof.
  intros Hblog. rewrite displayUserData_unfold.
  set (w0 := statsDraws _).
  assert (H0 : currentUser w0 = currentUser w /\ isLoading w0 = isLoading w
               /\ network w0 = network w)
    by (unfold w0;
        now rewrite statsDraws_currentUser, statsDraws_isLoading,
          statsDraws_network).
  destruct H0 as [<- [<- <-]]. clearbody w0.
  unfold DomManager.updateDetails, DomManager.updateWebsite.
  destruct (blog u) as [| | b | z | s |]; try discriminate; simpl.
  - destruct (entropy w0); eexists; repeat split.
  - destruct (entropy w0); eexists; repeat split.
  - destruct (String.eqb s ""); simpl;
      destruct (entropy w0); eexists; repeat split.
Qed.

(** The request of a load succeeds: the record is stored and shown, and
    the loading flag is lowered. *)
Lemma loadBody_success (m : Mode) (request : Async UserRecord)
    (w1 w2 : World) (u : UserRecord) :
  interp m request w1 = (w2, Returned u) ->
  textOrMissing (blog u) = true ->
  exists w3,
    interp m (loadBody request) w1 = (w3, Returned tt)
    /\ currentUser w3 = Some u
    /\ isLoading w3 = false.
Proof.
  intros Hreq Hblog. unfold loadBody.
  rewrite interp_finally, interp_tryCatch, interp_bind, Hreq.
  cbn [perform bind interp step]. rewrite interp_bind.
  destruct (displayUserData_returns m u (set_currentUser (Some u) w2) Hblog)
    as [w' [-> [Hcu _]]].
  simpl. eexists. repeat split. simpl. exact Hcu.
Qed.

(** The single-flight guard of the guarded entry points. *)
Lemma loadRandomUser_guard (m : Mode) (w : World) :
  isLoading w = true ->
  interp m ProfileCardApp.loadRandomUser w = (w, Returned tt).
Proof.
  intros H.
  now rewrite loadRandomUser_unfold, interp_bind, interp_GetIsLoading, H.
Qed.

Lemma loadUser_guard (m : Mode) (handle : JsVal) (w : World) :
  isLoading w = true ->
  interp m (ProfileCardApp.loadUser handle) w = (w, Returned tt).
Proof.
  intros H. now rewrite loadUser_unfold, interp_bind, interp_GetIsLoading, H.
Qed.

Lemma handleRefresh_guard (m : Mode) (w : World) :
  isLoading w = true ->
  interp m ProfileCardApp.handleRefresh w = (w, Returned tt).
Proof.
  intros H. unfold ProfileCardApp.handleRefresh.
  now rewrite interp_bind, interp_GetIsLoading, H.
Qed.

Lemma refreshCurrentUser_without_record (m : Mode) (w : World) :
  currentUser w = None ->
  interp m ProfileCardApp.refreshCurrentUser w =
  interp m ProfileCardApp.loadRandomUser w.
Proof.
  intros H. unfold ProfileCardApp.refreshCurrentUser.
  now rewrite interp_bind, interp_GetCurrentUser, H.
Qed.

(** An invalid handle: the error panel, and nothing else. *)
Lemma loadUser_invalid (m : Mode) (handle : JsVal) (w : World) :
  isLoading w = false ->
  ApiService.isValidUsername handle = false ->
  interp m (ProfileCardApp.loadUser handle) w =
  (log (EvShowErrorState "Please enter a valid username") w, Returned tt).
Proof.
  intros Hload Hvalid.
  rewrite loadUser_unfold, interp_bind, interp_GetIsLoading, Hload, Hvalid.
  reflexivity.
Qed.

(** *** Loads run alone, with a request that fails *)

Lemma loadRandomUser_failure (w : World) (out : FetchOutcome)
    (rest : list FetchOutcome) (n message : string) :
  isLoading w = false ->
  network w = out :: rest ->
  failure out = Some (ErrorObject n message) ->
  run ProfileCardApp.loadRandomUser w =
  (set_isLoading false
     (reported message
        (log (EvConsoleError "Error loading user:" (ErrorObject n message))
           (set_network rest
              (log (EvFetch (requestUrl (randomUsername (nextDraw w))))
                 (afterDraw
                    (log EvShowLoadingState (set_isLoading true w))))))),
   Returned tt).
Proof.
  intros Hload Hnet Hfail. apply failure_outcome in Hfail.
  unfold run.
  rewrite loadRandomUser_unfold, interp_bind, interp_GetIsLoading, Hload.
  cbn [ProfileCardApp.setLoadingState DomManager.showLoadingState emit
       perform bind interp step].
  apply loadBody_failure.
  rewrite interp_fetchRandomUser.
  fold (run (ApiService.fetchUserData
               (randomUsername
                  (nextDraw (log EvShowLoadingState (set_isLoading true w)))))
            (afterDraw (log EvShowLoadingState (set_isLoading true w)))).
  rewrite (run_fetchUserData _ _ out rest), Hfail; [reflexivity |].
  now rewrite afterDraw_network.
Qed.

Lemma loadUser_failure (handle : JsVal) (w : World) (out : FetchOutcome)
    (rest : list FetchOutcome) (n message : string) :
  isLoading w = false ->
  ApiService.isValidUsername handle = true ->
  network w = out :: rest ->
  failure out = Some (ErrorObject n message) ->
  run (ProfileCardApp.loadUser handle) w =
  (set_isLoading false
     (reported message
        (log (EvConsoleError "Error loading user:" (ErrorObject n message))
           (set_network rest
              (log (EvFetch (requestUrl handle))
                 (log EvShowLoadingState (set_isLoading true w)))))),
   Returned tt).
Proof.
  intros Hload Hvalid Hnet Hfail. apply failure_outcome in Hfail.
  unfold run.
  rewrite loadUser_unfold, interp_bind, interp_GetIsLoading, Hload, Hvalid.
  cbn [negb ProfileCardApp.setLoadingState DomManager.showLoadingState emit
       perform bind interp step].
  apply loadBody_failure.
  fold (run (ApiService.fetchUserData handle)
            (log EvShowLoadingState (set_isLoading true w))).
  now rewrite (run_fetchUserData _ _ out rest), Hfail.
Qed.

Lemma refreshCurrentUser_failure (w : World) (u : UserRecord)
    (out : FetchOutcome) (rest : list FetchOutcome) (n message : string) :
  currentUser w = Some u ->
  network w = out :: rest ->
  failure out = Some (ErrorObject n message) ->
  run ProfileCardApp.refreshCurrentUser w =
  (reported message
     (set_network rest (log (EvFetch (requestUrl (username u))) w)),
   Returned tt).
Proof.
  intros Hcu Hnet Hfail. apply failure_outcome in Hfail.
  unfold run, ProfileCardApp.refreshCurrentUser.
  rewrite interp_bind, interp_GetCurrentUser, Hcu.
  rewrite interp_tryCatch, interp_bind.
  rewrite (interp_currentUserField _ _ _ _ u Hcu), interp_bind.
  fold (run (ApiService.fetchUserData (username u)) w).
  rewrite (run_fetchUserData _ _ out rest Hnet), Hfail.
  apply interp_handleError.
Qed.

(** *** Calls that suspend, and their request failing later *)

Lemma settle_loadBody_failure (url : string) (out : FetchOutcome)
    (n message : string) (w : World) :
  failure out = Some (ErrorObject n message) ->
  settle (Pending (Fetch url) (fun x => loadBody (afterFetch x))) out w =
  (set_isLoading false
     (reported message
        (log (EvConsoleError "Error loading user:" (ErrorObject n message))
             w)),
   Returned tt).
Proof.
  intros Hfail. apply failure_outcome in Hfail.
  unfold settle, call. apply loadBody_failure.
  now rewrite interp_afterFetch, Hfail.
Qed.

Lemma loadRandomUser_call (w : World) :
  isLoading w = false ->
  call ProfileCardApp.loadRandomUser w =
  (log (EvFetch (requestUrl (randomUsername (nextDraw w))))
     (afterDraw (log EvShowLoadingState (set_isLoading true w))),
   Pending (Fetch (requestUrl (randomUsername (nextDraw w))))
     (fun x => loadBody (afterFetch x))).
Proof.
  intros Hload. unfold call.
  rewrite loadRandomUser_unfold, interp_bind, interp_GetIsLoading, Hload.
  cbn [ProfileCardApp.setLoadingState DomManager.showLoadingState emit
       perform bind interp step].
  apply loadBody_pending. now rewrite interp_fetchRandomUser.
Qed.

Lemma loadUser_call (handle : JsVal) (w : World) :
  isLoading w = false ->
  ApiService.isValidUsername handle = true ->
  call (ProfileCardApp.loadUser handle) w =
  (log (EvFetch (requestUrl handle))
     (log EvShowLoadingState (set_isLoading true w)),
   Pending (Fetch (requestUrl handle)) (fun x => loadBody (afterFetch x))).
Proof.
  intros Hload Hvalid. unfold call.
  rewrite loadUser_unfold, interp_bind, interp_GetIsLoading, Hload, Hvalid.
  cbn [negb ProfileCardApp.setLoadingState DomManager.showLoadingState emit
       perform bind interp step].
  now apply loadBody_pending.
Qed.

(** With a record, [refreshCurrentUser] sends its request for the handle
    of the record whatever the loading flag, and leaves the flag alone. *)
Lemma refreshCurrentUser_call (w : World) (u : UserRecord) :
  currentUser w = Some u ->
  exists k,
    call ProfileCardApp.refreshCurrentUser w =
    (log (EvFetch (requestUrl (username u))) w,
     Pending (Fetch (requestUrl (username u))) k)
    /\ forall out n message w',
         failure out = Some (ErrorObject n message) ->
         settle (Pending (Fetch (requestUrl (username u))) k) out w' =
         (reported message w', Returned tt).
Proof.
  intros Hcu. eexists. split.
  - unfold call, ProfileCardApp.refreshCurrentUser.
    rewrite interp_bind, interp_GetCurrentUser, Hcu.
    rewrite interp_tryCatch, interp_bind.
    rewrite (interp_currentUserField _ _ _ _ u Hcu), interp_bind.
    fold (call (ApiService.fetchUserData (username u)) w).
    rewrite call_fetchUserData. reflexivity.
  - intros out n message w' Hfail. apply failure_outcome in Hfail.
    unfold settle, call. cbn beta.
    rewrite interp_tryCatch, interp_bind, interp_afterFetch, Hfail.
    apply interp_handleError.
Qed.

(** The refresh button while nothing is loading: a random load. *)
Lemma handleRefresh_call (w : World) :
  isLoading w = false ->
  exists k,
    call ProfileCardApp.handleRefresh w =
    (log (EvFetch (requestUrl (randomUsername (nextDraw w))))
       (afterDraw
          (log EvShowLoadingState
             (set_isLoading true (log EvAddRefreshButtonLoading w)))),
     Pending (Fetch (requestUrl (randomUsername (nextDraw w)))) k).
Proof.
  intros Hload. eexists. unfold call, ProfileCardApp.handleRefresh.
  rewrite interp_bind, interp_GetIsLoading, Hload.
  cbn [DomManager.addRefreshButtonLoading emit perform bind interp step].
  rewrite interp_bind.
  fold (call ProfileCardApp.loadRandomUser (log EvAddRefreshButtonLoading w)).
  rewrite (loadRandomUser_call (log EvAddRefreshButtonLoading w) Hload).
  reflexivity.
Qed.

(** Single flight, where the code has it: once the refresh button has
    started a load, a second click, a retry, a random load and a
    by-handle load all return at once and leave the world as it is, so
    two clicks in a row send one request. *)
Lemma handleRefresh_single_flight (w : World) (handle : JsVal) :
  isLoading w = false ->
  let w1 := fst (call ProfileCardApp.handleRefresh w) in
  fetches (trace w1) =
  (fetches (trace w) ++ [requestUrl (randomUsername (nextDraw w))])%list
  /\ call ProfileCardApp.handleRefresh w1 = (w1, Returned tt)
  /\ call ProfileCardApp.handleRetry w1 = (w1, Returned tt)
  /\ call ProfileCardApp.loadRandomUser w1 = (w1, Returned tt)
  /\ call (ProfileCardApp.loadUser handle) w1 = (w1, Returned tt).
Proof.
  intros Hload w1.
  destruct (handleRefresh_call w Hload) as [k Hcall].
  assert (Hw1 : w1 = log (EvFetch (requestUrl (randomUsername (nextDraw w))))
                       (afterDraw
                          (log EvShowLoadingState
                             (set_isLoading true
                                (log EvAddRefreshButtonLoading w)))))
    by (subst w1; rewrite Hcall; reflexivity).
  assert (Hflag : isLoading w1 = true)
    by (rewrite Hw1; simpl; now rewrite afterDraw_isLoading).
  split.
  - rewrite Hw1. simpl. autorewrite with world. simpl.
    now autorewrite with world.
  - repeat split.
    + now apply handleRefresh_guard.
    + now apply loadRandomUser_guard.
    + now apply loadRandomUser_guard.
    + now apply loadUser_guard.
Qed.

(* ================================================================== *)
(** ** C1: the single-flight guard *)

(** C1 (the code at the failing input).  With a record on display,
    [refreshCurrentUser] does not look at the loading flag: called while
    a load is in flight it sends a request for the handle of the record,
    and called twice in a row it sends two.  The entry points that do
    have the guard are in [handleRefresh_single_flight]. *)
Theorem refreshCurrentUser_ignores_loading :
  isLoading Sample.reloading = true
  /\ currentUser Sample.reloading = Some Sample.octocat
  /\ fetches (trace (fst (call ProfileCardApp.refreshCurrentUser
                            Sample.reloading)))
     = ["https://api.github.com/users/octocat"]
  /\ fetches
       (trace
          (fst (call ProfileCardApp.refreshCurrentUser
                  (fst (call ProfileCardApp.refreshCurrentUser
                          Sample.showing)))))
     = ["https://api.github.com/users/octocat";
        "https://api.github.com/users/octocat"].
Proof. repeat split. Qed.

(* ================================================================== *)
(** ** C2: what a refresh targets *)

(** C2, as stated, fails on the code: the refresh button
    ([handleRefresh]) does not request the handle of the record on
    display; on the draw 1/32 it requests [defunkt] while [octocat] is
    shown. *)
Lemma handleRefresh_targets_random_handle :
  ~ (forall w u,
       currentUser w = Some u ->
       isLoading w = false ->
       fetches (trace (fst (call ProfileCardApp.handleRefresh w)))
       = (fetches (trace w) ++ [requestUrl (username u)])%list).
Proof.
  intros H. specialize (H Sample.showing Sample.octocat eq_refl eq_refl).
  vm_compute in H. discriminate H.
Qed.

(** C2 (as amended).  The refresh button, when no load is in flight,
    sends one request, for the handle that [getRandomUsername] draws,
    whatever record is on display.  [refreshCurrentUser], when no load
    is in flight and a record is on display, sends one request, for the
    handle of that record; without a record it is [loadRandomUser]. *)
Theorem refresh_targets (w : World) :
  (forall u,
     currentUser w = Some u ->
     isLoading w = false ->
     fetches (trace (fst (call ProfileCardApp.refreshCurrentUser w)))
     = (fetches (trace w) ++ [requestUrl (username u)])%list)
  /\ (currentUser w = None ->
      forall m,
        interp m ProfileCardApp.refreshCurrentUser w =
        interp m ProfileCardApp.loadRandomUser w)
  /\ (isLoading w = false ->
      fetches (trace (fst (call ProfileCardApp.handleRefresh w)))
      = (fetches (trace w)
           ++ [requestUrl (randomUsername (nextDraw w))])%list).
Proof.
  split; [| split].
  - intros u Hcu _.
    destruct (refreshCurrentUser_call w u Hcu) as [k [Hcall _]].
    rewrite Hcall. simpl. now rewrite fetches_app.
  - intros Hcu m. now apply refreshCurrentUser_without_record.
  - intros Hload.
    exact (proj1 (handleRefresh_single_flight w JUndefined Hload)).
Qed.

Lemma refresh_targets_witness :
  fetches (trace (fst (call ProfileCardApp.refreshCurrentUser
                         Sample.showing)))
  = ["https://api.github.com/users/octocat"]
  /\ run ProfileCardApp.refreshCurrentUser Sample.idle =
     run ProfileCardApp.loadRandomUser Sample.idle
  /\ fetches (trace (fst (call ProfileCardApp.handleRefresh Sample.showing)))
     = ["https://api.github.com/users/defunkt"].
Proof.
  split; [| split].
  - exact (proj1 (refresh_targets Sample.showing) Sample.octocat
             eq_refl eq_refl).
  - exact (proj1 (proj2 (refresh_targets Sample.idle)) eq_refl ToCompletion).
  - exact (proj2 (proj2 (refresh_targets Sample.showing)) eq_refl).
Defined.

(* ================================================================== *)
(** ** C3: HTTP statuses and their messages *)

(** C3, as stated, fails on the code: not every status of the 5xx range
    gets the message of a server error; 503 gets "HTTP error! status:
    503". *)
Lemma server_error_message_only_for_500 :
  ~ (forall status b,
       500 <= status <= 599 ->
       failure (FetchResolved (mkResponse status b)) =
       Some (Error "Server error. Please try again later.")).
Proof.
  intros H. specialize (H 503 (JsonParsed Sample.emptyBody)).
  assert (Hr : 500 <= 503 <= 599) by lia.
  specialize (H Hr). vm_compute in H. discriminate H.
Qed.

(** C3 (as amended).  A response whose status is outside 200-299 makes
    [fetchUserData] throw an [Error] after its single request: with the
    message "User not found. Please try again." for 404, "API rate limit
    exceeded. Please try again later." for 403, "Server error. Please try
    again later." for 500, and "HTTP error! status: " followed by the
    status in decimal for every other status, the rest of the 5xx range
    included. *)
Theorem fetchUserData_http_error (handle : JsVal) (w : World) (status : Z)
    (b : JsonBody) (rest : list FetchOutcome) :
  network w = FetchResolved (mkResponse status b) :: rest ->
  ~ (200 <= status <= 299) ->
  exists message,
    run (ApiService.fetchUserData handle) w =
    (set_network rest (log (EvFetch (requestUrl handle)) w),
     Raised (ErrorObject "Error" message))
    /\ (status = 404 -> message = "User not found. Please try again.")
    /\ (status = 403 ->
        message = "API rate limit exceeded. Please try again later.")
    /\ (status = 500 -> message = "Server error. Please try again later.")
    /\ (status <> 404 -> status <> 403 -> status <> 500 ->
        message = "HTTP error! status: "
                  ++ NilZero.string_of_int (Z.to_int status)).
Proof.
  intros Hnet Hstatus.
  rewrite (run_fetchUserData _ _ _ _ Hnet).
  assert (Hok : ok (mkResponse status b) = false).
  { unfold ok. simpl. apply andb_false_iff.
    destruct (Z.leb_spec 200 status); [| now left].
    destruct (Z.leb_spec status 299); [lia | now right]. }
  unfold fetchUserData_outcome, run. simpl. rewrite Hok. simpl.
  unfold ApiService.handleHttpError.
  destruct (Z.eqb_spec status 404) as [-> | H404].
  { eexists; split; [reflexivity |]. repeat split; intros; try lia; auto. }
  destruct (Z.eqb_spec status 403) as [-> | H403].
  { eexists; split; [reflexivity |]. repeat split; intros; try lia; auto. }
  destruct (Z.eqb_spec status 500) as [-> | H500].
  { eexists; split; [reflexivity |]. repeat split; intros; try lia; auto. }
  eexists; split; [reflexivity |]. repeat split; intros; try lia; auto.
Qed.

Lemma fetchUserData_http_error_witness :
  (exists message,
     run (ApiService.fetchUserData (JStr "ghost"))
         (set_network [Sample.http 404 Sample.emptyBody] Sample.idle) =
     (set_network []
        (log (EvFetch "https://api.github.com/users/ghost") Sample.idle),
      Raised (ErrorObject "Error" message))
     /\ message = "User not found. Please try again.")
  /\ (exists message,
        snd (run (ApiService.fetchUserData (JStr "ghost"))
               (set_network [Sample.http 503 Sample.emptyBody] Sample.idle))
        = Raised (ErrorObject "Error" message)
        /\ message = "HTTP error! status: 503").
Proof.
  split.
  - destruct (fetchUserData_http_error (JStr "ghost")
                (set_network [Sample.http 404 Sample.emptyBody] Sample.idle)
                404 (JsonParsed Sample.emptyBody) [] eq_refl)
      as [message [Hrun [H404 _]]]; [lia |].
    exists message. split; [exact Hrun | exact (H404 eq_refl)].
  - destruct (fetchUserData_http_error (JStr "ghost")
                (set_network [Sample.http 503 Sample.emptyBody] Sample.idle)
                503 (JsonParsed Sample.emptyBody) [] eq_refl)
      as [message [Hrun [_ [_ [_ Hother]]]]]; [lia |].
    exists message. split; [now rewrite Hrun |].
    apply Hother; lia.
Defined.

(* ================================================================== *)
(** ** C4: validation of the handle *)

Lemma isValidUsername_spec (handle : JsVal) :
  ApiService.isValidUsername handle = true <->
  exists s, handle = JStr s /\ trim s <> "".
Proof.
  unfold ApiService.isValidUsername. split.
  - destruct handle as [| | b | z | s |]; simpl;
      rewrite ?andb_false_r; try discriminate.
    intros H. apply andb_prop in H as [_ H].
    exists s. split; [reflexivity |].
    intros He. rewrite He in H. discriminate.
  - intros [s [-> Hs]]. simpl. rewrite andb_true_r.
    apply andb_true_iff. split.
    + destruct s; [now elim Hs | reflexivity].
    + destruct (trim s); [now elim Hs | reflexivity].
Qed.

(** C4, as stated, fails on the code: [fetchUserData] does not validate
    its handle; for the empty string it sends a request. *)
Lemma fetchUserData_sends_invalid_handle :
  ~ (forall handle w,
       ApiService.isValidUsername handle = false ->
       fetches (trace (fst (call (ApiService.fetchUserData handle) w)))
       = fetches (trace w)).
Proof.
  intros H. specialize (H (JStr "") Sample.idle eq_refl).
  vm_compute in H. discriminate H.
Qed.

(** C4 (as amended).  The validation is the controller's: for a handle
    that is not a string with a non-empty trimmed form, [loadUser], when
    no load is in flight, shows the error panel with "Please enter a
    valid username" and returns; it sends no request and changes nothing
    else. *)
Theorem loadUser_rejects_invalid_handle (handle : JsVal) (w : World) :
  isLoading w = false ->
  ~ (exists s, handle = JStr s /\ trim s <> "") ->
  run (ProfileCardApp.loadUser handle) w =
  (log (EvShowErrorState "Please enter a valid username") w, Returned tt)
  /\ fetches (trace (fst (run (ProfileCardApp.loadUser handle) w)))
     = fetches (trace w).
Proof.
  intros Hload Hbad.
  assert (Hvalid : ApiService.isValidUsername handle = false).
  { destruct (ApiService.isValidUsername handle) eqn:E; [| reflexivity].
    apply isValidUsername_spec in E. contradiction. }
  unfold run. rewrite (loadUser_invalid _ _ _ Hload Hvalid).
  split; [reflexivity |].
  simpl. now autorewrite with world.
Qed.

Lemma loadUser_rejects_invalid_handle_witness :
  run (ProfileCardApp.loadUser (JStr "")) Sample.idle =
  (log (EvShowErrorState "Please enter a valid username") Sample.idle,
   Returned tt)
  /\ fetches (trace (fst (run (ProfileCardApp.loadUser (JStr ""))
                            Sample.idle))) = [].
Proof.
  apply (loadUser_rejects_invalid_handle (JStr "") Sample.idle eq_refl).
  intros [s [Hs Ht]]. injection Hs as <-. apply Ht. reflexivity.
Defined.

(* ================================================================== *)
(** ** C5: the attempts of fetchUserWithRetry *)



(* ================================================================== *)
(** ** C6: the waits of fetchUserWithRetry *)



(* ================================================================== *)
(** ** C7: the fallbacks of processUserData *)

Lemma js_or_not_empty (v fallback : JsVal) :
  fallback <> JStr "" -> js_or v fallback <> JStr "".
Proof.
  intros Hf. unfold js_or. destruct (truthy v) eqn:Hv; [| exact Hf].
  intros ->. discriminate Hv.
Qed.

Lemma js_or_text (v fallback : JsVal) :
  textOrMissing v = true ->
  js_or v fallback = fallback \/ nonEmptyString (js_or v fallback).
Proof.
  unfold js_or. destruct v as [| | b | z | s |]; simpl; try discriminate; auto.
  intros _. destruct (String.eqb_spec s ""); simpl; [now left |].
  right. now exists s.
Qed.

(** C7, as stated, fails on the code: not every body gives a record
    whose optional fields are non-empty strings or [null].  A body whose
    blog is the number 42 gives a record whose blog is that number. *)
Lemma processUserData_keeps_a_number :
  ~ (forall data,
       let r := ApiService.processUserData data in
       blog r = JNull \/ nonEmptyString (blog r)).
Proof.
  intros H. destruct (H Sample.oddBody) as [Hnull | [s [Hs _]]].
  - discriminate Hnull.
  - discriminate Hs.
Qed.

(** C7 (as amended).  For every body, [processUserData] puts "No bio
    available" for a missing (or empty) bio, "Location not specified"
    for a missing location, the login for a missing name and [null] for
    a missing email, company or blog; a field that is present (truthy)
    is kept as it is; and no such field of the record is the empty
    string (the name, when the login is not).  When the field of the
    body is text or missing, the bio and the location of the record are
    non-empty strings, the name is one when the login is, and the email,
    the company and the blog are each a non-empty string or [null].  A
    response in 200-299 with that body makes [fetchUserData] return this
    record. *)
Theorem processUserData_fallbacks (data : RawUser) :
  let r := ApiService.processUserData data in
  ((truthy (raw_bio data) = false -> bio r = JStr "No bio available")
   /\ (truthy (raw_location data) = false ->
       location r = JStr "Location not specified")
   /\ (truthy (raw_name data) = false -> name r = raw_login data)
   /\ (truthy (raw_email data) = false -> email r = JNull)
   /\ (truthy (raw_company data) = false -> company r = JNull)
   /\ (truthy (raw_blog data) = false -> blog r = JNull))
  /\ ((truthy (raw_bio data) = true -> bio r = raw_bio data)
      /\ (truthy (raw_location data) = true -> location r = raw_location data)
      /\ (truthy (raw_name data) = true -> name r = raw_name data)
      /\ (truthy (raw_email data) = true -> email r = raw_email data)
      /\ (truthy (raw_company data) = true -> company r = raw_company data)
      /\ (truthy (raw_blog data) = true -> blog r = raw_blog data))
  /\ (bio r <> JStr "" /\ location r <> JStr "" /\ email r <> JStr ""
      /\ company r <> JStr "" /\ blog r <> JStr ""
      /\ (raw_login data <> JStr "" -> name r <> JStr ""))
  /\ ((textOrMissing (raw_bio data) = true -> nonEmptyString (bio r))
      /\ (textOrMissing (raw_location data) = true ->
          nonEmptyString (location r))
      /\ (textOrMissing (raw_name data) = true ->
          nonEmptyString (raw_login data) -> nonEmptyString (name r))
      /\ (textOrMissing (raw_email data) = true ->
          email r = JNull \/ nonEmptyString (email r))
      /\ (textOrMissing (raw_company data) = true ->
          company r = JNull \/ nonEmptyString (company r))
      /\ (textOrMissing (raw_blog data) = true ->
          blog r = JNull \/ nonEmptyString (blog r)))
  /\ (forall status,
        200 <= status <= 299 ->
        fetchUserData_outcome
          (FetchResolved (mkResponse status (JsonParsed data))) = Returned r).
Proof.
  intros r. subst r. simpl. split; [| split; [| split; [| split]]].
  - repeat split; unfold js_or; now intros ->.
  - repeat split; unfold js_or; now intros ->.
  - split; [| split; [| split; [| split; [| split]]]];
      first [apply js_or_not_empty; discriminate | apply js_or_not_empty].
  - split; [| split; [| split; [| split; [| split]]]].
    + intros H.
      destruct (js_or_text _ (JStr "No bio available") H) as [-> | Hs];
        [exists "No bio available"; split; [reflexivity | discriminate]
        | exact Hs].
    + intros H.
      destruct (js_or_text _ (JStr "Location not specified") H) as [-> | Hs];
        [exists "Location not specified"; split; [reflexivity | discriminate]
        | exact Hs].
    + intros H Hlogin.
      destruct (js_or_text _ (raw_login data) H) as [-> | Hs]; assumption.
    + now apply js_or_text.
    + now apply js_or_text.
    + now apply js_or_text.
  - intros status Hstatus. unfold fetchUserData_outcome, run. simpl.
    assert (Hok : ok (mkResponse status (JsonParsed data)) = true).
    { unfold ok. simpl. apply andb_true_iff. split; apply Z.leb_le; lia. }
    rewrite Hok. reflexivity.
Qed.

Lemma processUserData_fallbacks_witness :
  let r := ApiService.processUserData Sample.octocatBody in
  bio r = JStr "No bio available"
  /\ email r = JNull
  /\ location r = JStr "San Francisco"
  /\ blog r = JStr "https://github.blog"
  /\ name r <> JStr ""
  /\ nonEmptyString (name r)
  /\ (company r = JNull \/ nonEmptyString (company r))
  /\ fetchUserData_outcome (Sample.http 200 Sample.octocatBody) = Returned r.
Proof.
  intros r.
  destruct (processUserData_fallbacks Sample.octocatBody)
    as [[Hbio [_ [_ [Hemail _]]]]
          [[_ [Hlocation [_ [_ [_ Hblog]]]]]
             [[_ [_ [_ [_ [_ Hname]]]]]
                [[_ [_ [Htext [_ [Hcompany _]]]]] Hfetch]]]].
  split; [exact (Hbio eq_refl) |].
  split; [exact (Hemail eq_refl) |].
  split; [exact (Hlocation eq_refl) |].
  split; [exact (Hblog eq_refl) |].
  split; [apply Hname; discriminate |].
  split.
  - apply (Htext eq_refl). exists "octocat".
    split; [reflexivity | discriminate].
  - split; [exact (Hcompany eq_refl) |]. apply Hfetch. lia.
Defined.

(* ================================================================== *)
(** ** C8: how a failure is shown *)

(** C8, as stated, fails on the code: a validation failure of [loadUser]
    shows the error panel and no notification. *)
Lemma validation_failure_without_notification :
  ~ (forall handle w,
       isLoading w = false ->
       ApiService.isValidUsername handle = false ->
       exists message,
         In (EvShowErrorState message)
            (trace (fst (run (ProfileCardApp.loadUser handle) w)))
         /\ In (EvShowNotification message "error")
               (trace (fst (run (ProfileCardApp.loadUser handle) w)))).
Proof.
  intros H.
  destruct (H (JStr "") Sample.idle eq_refl eq_refl) as [message [_ Hn]].
  vm_compute in Hn. destruct Hn as [Hn | []]. discriminate Hn.
Qed.

(** C8 (as amended).  When the request of a load fails with an error of
    message [message], the controller shows the error panel and then a
    notification of type "error", both with the same text: [message], or
    "An unexpected error occurred. Please try again." when [message] is
    empty.  This holds for [loadRandomUser], for [loadUser] with a valid
    handle and for [refreshCurrentUser] with a record on display.  A
    validation failure of [loadUser] shows the error panel with "Please
    enter a valid username", and that is all it shows. *)
Theorem load_failure_reported (handle : JsVal) (w : World)
    (out : FetchOutcome) (rest : list FetchOutcome) (n message : string) :
  isLoading w = false ->
  network w = out :: rest ->
  failure out = Some (ErrorObject n message) ->
  let shown :=
    if String.eqb message "" then
      "An unexpected error occurred. Please try again."
    else message in
  let e := ErrorObject n message in
  trace (fst (run ProfileCardApp.loadRandomUser w)) =
  (trace w
     ++ [EvShowLoadingState;
         EvFetch (requestUrl (randomUsername (nextDraw w)));
         EvConsoleError "Error loading user:" e;
         EvShowErrorState shown; EvShowNotification shown "error"])%list
  /\ (ApiService.isValidUsername handle = true ->
      trace (fst (run (ProfileCardApp.loadUser handle) w)) =
      (trace w
         ++ [EvShowLoadingState; EvFetch (requestUrl handle);
             EvConsoleError "Error loading user:" e;
             EvShowErrorState shown; EvShowNotification shown "error"])%list)
  /\ (forall u,
        currentUser w = Some u ->
        trace (fst (run ProfileCardApp.refreshCurrentUser w)) =
        (trace w
           ++ [EvFetch (requestUrl (username u));
               EvShowErrorState shown; EvShowNotification shown "error"])%list)
  /\ (ApiService.isValidUsername handle = false ->
      trace (fst (run (ProfileCardApp.loadUser handle) w)) =
      (trace w ++ [EvShowErrorState "Please enter a valid username"])%list).
Proof.
  intros Hload Hnet Hfail shown e. split; [| split; [| split]].
  - rewrite (loadRandomUser_failure w out rest n message Hload Hnet Hfail).
    simpl. rewrite afterDraw_trace. simpl. now rewrite <- !app_assoc.
  - intros Hvalid.
    rewrite (loadUser_failure handle w out rest n message Hload Hvalid Hnet
               Hfail).
    simpl. now rewrite <- !app_assoc.
  - intros u Hcu.
    rewrite (refreshCurrentUser_failure w u out rest n message Hcu Hnet Hfail).
    simpl. now rewrite <- !app_assoc.
  - intros Hvalid. unfold run.
    now rewrite (loadUser_invalid _ _ _ Hload Hvalid).
Qed.

Lemma load_failure_reported_witness :
  let ghost := "https://api.github.com/users/ghost" in
  let notFound := "User not found. Please try again." in
  let w := set_network [Sample.http 404 Sample.emptyBody] Sample.showing in
  trace (fst (run ProfileCardApp.loadRandomUser w)) =
  [EvShowLoadingState; EvFetch "https://api.github.com/users/defunkt";
   EvConsoleError "Error loading user:" (Error notFound);
   EvShowErrorState notFound; EvShowNotification notFound "error"]
  /\ trace (fst (run (ProfileCardApp.loadUser (JStr "ghost")) w)) =
     [EvShowLoadingState; EvFetch ghost;
      EvConsoleError "Error loading user:" (Error notFound);
      EvShowErrorState notFound; EvShowNotification notFound "error"]
  /\ trace (fst (run ProfileCardApp.refreshCurrentUser w)) =
     [EvFetch "https://api.github.com/users/octocat";
      EvShowErrorState notFound; EvShowNotification notFound "error"]
  /\ trace (fst (run (ProfileCardApp.loadUser (JStr " ")) w)) =
     [EvShowErrorState "Please enter a valid username"].
Proof.
  intros ghost notFound w.
  pose proof (fun handle =>
                load_failure_reported handle w
                  (Sample.http 404 Sample.emptyBody) [] "Error" notFound
                  eq_refl eq_refl eq_refl) as H.
  split; [exact (proj1 (H JNull)) |].
  split; [exact (proj1 (proj2 (H (JStr "ghost"))) eq_refl) |].
  split; [exact (proj1 (proj2 (proj2 (H JNull))) Sample.octocat eq_refl) |].
  exact (proj2 (proj2 (proj2 (H (JStr " ")))) eq_refl).
Defined.

(* ================================================================== *)
(** ** C9: a failed load keeps the record *)

(** C9, as stated, fails on the code: a load can end in an error after
    it has replaced the record.  With [octocat] on display, a load whose
    request is answered with a body whose blog is a number stores the
    new record, fails while showing it and ends on the error panel. *)
Lemma render_error_replaces_record :
  ~ (forall handle w message,
       isLoading w = false ->
       trace w = [] ->
       In (EvShowErrorState message)
          (trace (fst (run (ProfileCardApp.loadUser handle) w))) ->
       currentUser (fst (run (ProfileCardApp.loadUser handle) w))
       = currentUser w).
Proof.
  intros H.
  specialize (H (JStr "odd")
                (set_network [Sample.http 200 Sample.oddBody] Sample.showing)
                "blog.startsWith is not a function" eq_refl eq_refl).
  assert (Hin : In (EvShowErrorState "blog.startsWith is not a function")
                   (trace
                      (fst (run (ProfileCardApp.loadUser (JStr "odd"))
                              (set_network [Sample.http 200 Sample.oddBody]
                                 Sample.showing)))))
    by (vm_compute; do 7 right; left; reflexivity).
  specialize (H Hin). vm_compute in H. discriminate H.
Qed.

(** C9 (as amended).  A load whose request fails, or whose handle is
    invalid, leaves [currentUser] as it was.  Run alone with a request
    that fails, [loadRandomUser], [loadUser] and [refreshCurrentUser]
    end with the [currentUser] they started with; so does [loadUser] on
    an invalid handle.  And when the request of any of the three, once
    sent, fails at a later moment, the rest of the call leaves the
    [currentUser] of that moment untouched. *)
Theorem failed_load_keeps_record (w : World) :
  (forall handle out rest e,
     network w = out :: rest ->
     failure out = Some e ->
     currentUser (fst (run ProfileCardApp.loadRandomUser w)) = currentUser w
     /\ currentUser (fst (run (ProfileCardApp.loadUser handle) w))
        = currentUser w
     /\ currentUser (fst (run ProfileCardApp.refreshCurrentUser w))
        = currentUser w)
  /\ (forall handle,
        ApiService.isValidUsername handle = false ->
        currentUser (fst (run (ProfileCardApp.loadUser handle) w))
        = currentUser w)
  /\ (forall handle out e w',
        failure out = Some e ->
        currentUser
          (fst (settle (snd (call ProfileCardApp.loadRandomUser w)) out w'))
        = currentUser w'
        /\ currentUser
             (fst (settle (snd (call (ProfileCardApp.loadUser handle) w))
                     out w'))
           = currentUser w'
        /\ currentUser
             (fst (settle (snd (call ProfileCardApp.refreshCurrentUser w))
                     out w'))
           = currentUser w').
Proof.
  assert (Hrandom : forall out rest e,
            network w = out :: rest -> failure out = Some e ->
            currentUser (fst (run ProfileCardApp.loadRandomUser w))
            = currentUser w).
  { intros out rest e Hnet Hfail.
    destruct (failure_error_object _ _ Hfail) as [n [message ->]].
    destruct (isLoading w) eqn:Hload.
    - unfold run. now rewrite loadRandomUser_guard.
    - rewrite (loadRandomUser_failure w out rest n message Hload Hnet Hfail).
      simpl. now rewrite afterDraw_currentUser. }
  assert (Hinvalid : forall handle,
            ApiService.isValidUsername handle = false ->
            currentUser (fst (run (ProfileCardApp.loadUser handle) w))
            = currentUser w).
  { intros handle Hvalid. unfold run. destruct (isLoading w) eqn:Hload.
    - now rewrite loadUser_guard.
    - now rewrite (loadUser_invalid _ _ _ Hload Hvalid). }
  assert (Hrandom' : forall out e w',
            failure out = Some e ->
            currentUser
              (fst (settle (snd (call ProfileCardApp.loadRandomUser w)) out w'))
            = currentUser w').
  { intros out e w' Hfail.
    destruct (failure_error_object _ _ Hfail) as [n [message ->]].
    destruct (isLoading w) eqn:Hload.
    - unfold call. now rewrite loadRandomUser_guard.
    - rewrite (loadRandomUser_call w Hload). simpl snd.
      now rewrite (settle_loadBody_failure _ out n message w' Hfail). }
  split; [| split].
  - intros handle out rest e Hnet Hfail.
    split; [now apply (Hrandom out rest e) | split].
    + destruct (ApiService.isValidUsername handle) eqn:Hvalid;
        [| now apply Hinvalid].
      destruct (failure_error_object _ _ Hfail) as [n [message ->]].
      destruct (isLoading w) eqn:Hload.
      * unfold run. now rewrite loadUser_guard.
      * now rewrite (loadUser_failure handle w out rest n message Hload Hvalid
                       Hnet Hfail).
    + destruct (currentUser w) as [u |] eqn:Hcu.
      * destruct (failure_error_object _ _ Hfail) as [n [message ->]].
        now rewrite (refreshCurrentUser_failure w u out rest n message Hcu Hnet
                       Hfail).
      * unfold run. rewrite (refreshCurrentUser_without_record _ _ Hcu).
        now apply (Hrandom out rest e).
  - exact Hinvalid.
  - intros handle out e w' Hfail.
    split; [now apply (Hrandom' out e) | split].
    + destruct (isLoading w) eqn:Hload.
      * unfold call. now rewrite loadUser_guard.
      * destruct (ApiService.isValidUsername handle) eqn:Hvalid.
        -- destruct (failure_error_object _ _ Hfail) as [n [message ->]].
           rewrite (loadUser_call handle w Hload Hvalid). simpl snd.
           now rewrite (settle_loadBody_failure _ out n message w' Hfail).
        -- unfold call. now rewrite (loadUser_invalid _ _ _ Hload Hvalid).
    + destruct (currentUser w) as [u |] eqn:Hcu.
      * destruct (failure_error_object _ _ Hfail) as [n [message ->]].
        destruct (refreshCurrentUser_call w u Hcu) as [k [-> Hsettle]].
        simpl snd. now rewrite (Hsettle out n message w' Hfail).
      * unfold call. rewrite (refreshCurrentUser_without_record _ _ Hcu).
        now apply (Hrandom' out e).
Qed.

Lemma failed_load_keeps_record_witness :
  let w := set_network [Sample.http 404 Sample.emptyBody] Sample.showing in
  (currentUser (fst (run ProfileCardApp.loadRandomUser w))
   = Some Sample.octocat
   /\ currentUser (fst (run (ProfileCardApp.loadUser (JStr "ghost")) w))
      = Some Sample.octocat
   /\ currentUser (fst (run ProfileCardApp.refreshCurrentUser w))
      = Some Sample.octocat)
  /\ currentUser (fst (run (ProfileCardApp.loadUser (JStr "")) w))
     = Some Sample.octocat
  /\ currentUser
       (fst (settle (snd (call ProfileCardApp.refreshCurrentUser w))
               Sample.unreachable Sample.idle))
     = None.
Proof.
  intros w.
  destruct (failed_load_keeps_record w) as [Hrun [Hinvalid Hlater]].
  split; [| split].
  - exact (Hrun (JStr "ghost") (Sample.http 404 Sample.emptyBody) []
             (Error "User not found. Please try again.") eq_refl eq_refl).
  - exact (Hinvalid (JStr "") eq_refl).
  - exact (proj2 (proj2
             (Hlater JNull Sample.unreachable
                (Error "Network error. Please check your internet connection.")
                Sample.idle eq_refl))).
Defined.

(* ================================================================== *)
(** ** C10: follow and message without a record *)

(** C10.  While no record has been loaded ([currentUser] is [null]),
    [handleFollow] and [handleMessage] return at once and leave the world
    as it is: no notification, no renderer call, no request and no
    change of the controller or of the follow button. *)
Theorem handlers_without_record (w : World) :
  currentUser w = None ->
  run ProfileCardApp.handleFollow w = (w, Returned tt)
  /\ run ProfileCardApp.handleMessage w = (w, Returned tt).
Proof.
  intros Hnone.
  unfold run, ProfileCardApp.handleFollow, ProfileCardApp.handleMessage.
  rewrite !interp_bind, !interp_GetCurrentUser, Hnone. split; reflexivity.
Qed.

Lemma handlers_without_record_witness :
  run ProfileCardApp.handleFollow Sample.idle = (Sample.idle, Returned tt)
  /\ run ProfileCardApp.handleMessage Sample.idle = (Sample.idle, Returned tt).
Proof.
  exact (handlers_without_record Sample.idle eq_refl).
Defined.

(* ================================================================== *)
(** ** More of js/apiService.js *)

Lemma element_in_range (array : list string) (i : Z) :
  0 <= i < Z.of_nat (List.length array) ->
  exists s, ApiService.element array i = JStr s /\ In s array.
Proof.
  intros [Hlo Hhi]. unfold ApiService.element.
  destruct (Z.ltb_spec i 0); [lia |].
  destruct (nth_error array (Z.to_nat i)) as [s |] eqn:Hnth.
  - exists s. split; [reflexivity |]. now apply nth_error_In in Hnth.
  - apply nth_error_None in Hnth. lia.
Qed.

(** Rounding moves a number by half a unit of the last place at most. *)
Lemma roundDouble_near (n e : Z) :
  0 <= n ->
  let s := Z.max 0 (Z.max (Z.log2 n + 1 - 53) (- 1074 - e)) in
  let d := roundDouble n e in
  expo d = e + s /\ 0 <= mant d /\ 2 * (mant d * 2 ^ s) <= 2 * n + 2 ^ s.
Proof.
  intros Hn s d. subst d. unfold roundDouble. fold s. cbv zeta. cbn [mant expo].
  assert (Hs : 0 <= s) by (subst s; lia).
  assert (Hp : 0 < 2 ^ s) by (apply Z.pow_pos_nonneg; lia).
  pose proof (Z.div_mod n (2 ^ s) ltac:(lia)) as Hdiv.
  pose proof (Z.mod_pos_bound n (2 ^ s) Hp) as Hmod.
  assert (Hq : 0 <= n / 2 ^ s) by (apply Z.div_pos; lia).
  split; [reflexivity |].
  destruct ((2 ^ s <? 2 * (n mod 2 ^ s))
            || ((2 * (n mod 2 ^ s) =? 2 ^ s) && Z.odd (n / 2 ^ s))) eqn:Hup.
  - split; [lia |].
    assert (2 ^ s <= 2 * (n mod 2 ^ s)).
    { apply orb_true_iff in Hup. destruct Hup as [H | H].
      - apply Z.ltb_lt in H. lia.
      - apply andb_true_iff in H. destruct H as [H _].
        apply Z.eqb_eq in H. lia. }
    nia.
  - split; [lia |]. nia.
Qed.

Lemma floor_below (d : Double) (k bound : Z) :
  0 <= mant d -> 0 <= k -> 0 <= expo d + k ->
  mant d * 2 ^ (expo d + k) < bound * 2 ^ k ->
  0 <= floor d < bound.
Proof.
  intros Hm Hk Hs Hlt. unfold floor.
  assert (Hpk : 0 < 2 ^ k) by (apply Z.pow_pos_nonneg; lia).
  destruct (Z.leb_spec 0 (expo d)) as [He | He].
  - rewrite Z.pow_add_r in Hlt by lia.
    assert (0 < 2 ^ expo d) by (apply Z.pow_pos_nonneg; lia).
    split; [nia | nia].
  - assert (Hp : 0 < 2 ^ (- expo d)) by (apply Z.pow_pos_nonneg; lia).
    split; [apply Z.div_pos; lia |].
    apply Z.div_lt_upper_bound; [exact Hp |].
    assert (Hk2 : 2 ^ k = 2 ^ (- expo d) * 2 ^ (expo d + k))
      by (rewrite <- Z.pow_add_r by lia; f_equal; lia).
    rewrite Hk2 in Hlt.
    assert (0 < 2 ^ (expo d + k)) by (apply Z.pow_pos_nonneg; lia).
    nia.
Qed.

Lemma randomUsername_listed (r : Double) :
  unitDraw r ->
  exists s, randomUsername r = JStr s /\ In s ApiService.usernames.
Proof.
  intros [[[Hm0 Hm] He] Hlt]. unfold randomUsername. apply element_in_range.
  change (Z.of_nat (List.length ApiService.usernames)) with 41.
  unfold times, ofCount. cbn [mant expo].
  rewrite Z.add_0_r.
  destruct (roundDouble_near (mant r * 41) (expo r) ltac:(lia))
    as [Hexpo [Hpos Hnear]].
  set (d := roundDouble (mant r * 41) (expo r)) in *.
  set (s := Z.max 0 _) in *.
  assert (Hs : 0 <= s <= 6).
  { subst s. split; [lia |].
    assert (Z.log2 (mant r * 41) < 59); [| lia].
    destruct (Z.eq_dec (mant r) 0) as [Hz | Hnz]; [now rewrite Hz |].
    apply Z.log2_lt_pow2; [lia |].
    change (2 ^ 59) with (2 ^ 53 * 64). nia. }
  assert (Hps : 0 < 2 ^ s <= 64).
  { split; [apply Z.pow_pos_nonneg; lia |].
    change 64 with (2 ^ 6). apply Z.pow_le_mono_r; lia. }
  unfold greater in Hlt. cbn [mant expo] in Hlt. apply Z.ltb_lt in Hlt.
  destruct (Z.le_gt_cases 0 (expo r)) as [Hge | Hneg].
  - rewrite Z.min_l in Hlt by lia. rewrite Z.sub_0_r in Hlt.
    assert (0 < 2 ^ expo r) by (apply Z.pow_pos_nonneg; lia).
    assert (mant r = 0) by (simpl in Hlt; nia).
    assert (Hd : mant d = 0) by nia.
    apply (floor_below d 0 41); lia.
  - rewrite Z.min_r in Hlt by lia.
    rewrite Z.sub_diag, Z.sub_0_l in Hlt. simpl (2 ^ 0) in Hlt.
    apply (floor_below d (- expo r) 41); try lia.
    rewrite Hexpo. replace (expo r + s + - expo r) with s by lia.
    assert (0 < 2 ^ (- expo r)) by (apply Z.pow_pos_nonneg; lia).
    nia.
Qed.

Lemma interp_getRandomUsername (m : Mode) (w : World) :
  interp m ApiService.getRandomUsername w =
  (afterDraw w, Returned (randomUsername (nextDraw w))).
Proof.
  unfold ApiService.getRandomUsername.
  now rewrite interp_bind, interp_MathRandom.
Qed.

(** X1.  On a draw that is a double below 1, [getRandomUsername]
    returns one of the listed handles, never [undefined], and
    [fetchRandomUser] sends its request for that handle.  The product
    of the draw and the length of the list is the rounded one: it stays
    below the length on every such draw. *)
Theorem fetchRandomUser_requests_listed_handle (w : World) :
  unitDraw (nextDraw w) ->
  exists s,
    In s ApiService.usernames
    /\ run ApiService.getRandomUsername w = (afterDraw w, Returned (JStr s))
    /\ fst (call ApiService.fetchRandomUser w) =
       log (EvFetch (ApiService.baseUrl ++ "/" ++ s)) (afterDraw w).
Proof.
  intros Hdraw.
  destruct (randomUsername_listed _ Hdraw) as [s [Hs Hin]].
  exists s. split; [exact Hin |]. split.
  - unfold run. now rewrite interp_getRandomUsername, Hs.
  - unfold call. rewrite interp_fetchRandomUser.
    fold (call (ApiService.fetchUserData (randomUsername (nextDraw w)))
               (afterDraw w)).
    rewrite call_fetchUserData. unfold requestUrl. now rewrite Hs.
Qed.

(** The draw 1098438933504999 / 2^53 is below 5/41; its product with 41
    rounds to 5 and the sixth handle is picked. *)
Lemma fetchRandomUser_requests_listed_handle_witness :
  let w := set_entropy [mkDouble 1098438933504999 (-53)] Sample.showing in
  1098438933504999 * 41 < 5 * 2 ^ 53
  /\ run ApiService.getRandomUsername w = (afterDraw w, Returned (JStr "ivey"))
  /\ exists s,
       In s ApiService.usernames
       /\ run ApiService.getRandomUsername w = (afterDraw w, Returned (JStr s))
       /\ fst (call ApiService.fetchRandomUser w) =
          log (EvFetch (ApiService.baseUrl ++ "/" ++ s)) (afterDraw w).
Proof.
  intros w. split; [reflexivity |]. split; [reflexivity |].
  apply (fetchRandomUser_requests_listed_handle w).
  split; [split; [split; [discriminate | reflexivity] | discriminate]
         | reflexivity].
Defined.

(** X2.  A request that is rejected, or a response in 200-299 whose body
    does not parse, makes [fetchUserData] throw after its one request:
    the error "Network error. Please check your internet connection."
    when the rejection is a TypeError whose message includes "fetch",
    and the rejection itself, unchanged, in every other case. *)
Theorem fetchUserData_rejection (handle : JsVal) (w : World)
    (out : FetchOutcome) (rest : list FetchOutcome) (n message : string) :
  network w = out :: rest ->
  out = FetchRejected (ErrorObject n message)
  \/ (exists status,
        200 <= status <= 299
        /\ out = FetchResolved
                   (mkResponse status (JsonRejected (ErrorObject n message)))) ->
  fst (run (ApiService.fetchUserData handle) w) =
  set_network rest (log (EvFetch (requestUrl handle)) w)
  /\ (n = "TypeError" -> includes "fetch" message = true ->
      snd (run (ApiService.fetchUserData handle) w) =
      Raised (Error "Network error. Please check your internet connection."))
  /\ (n <> "TypeError" \/ includes "fetch" message = false ->
      snd (run (ApiService.fetchUserData handle) w) =
      Raised (ErrorObject n message)).
Proof.
  intros Hnet Hout. rewrite (run_fetchUserData _ _ _ _ Hnet).
  split; [reflexivity |].
  assert (Hcase : fetchUserData_outcome out =
                  if String.eqb n "TypeError" && includes "fetch" message
                  then Raised (Error "Network error. Please check your internet connection.")
                  else Raised (ErrorObject n message)).
  { destruct Hout as [-> | [status [Hstatus ->]]];
      unfold fetchUserData_outcome, run; simpl.
    - network_error_cases n message; reflexivity.
    - assert (Hok : ok (mkResponse status
                          (JsonRejected (ErrorObject n message))) = true).
      { unfold ok. simpl. apply andb_true_iff. split; apply Z.leb_le; lia. }
      rewrite Hok. simpl. network_error_cases n message; reflexivity. }
  simpl. rewrite Hcase. split.
  - intros -> ->. reflexivity.
  - intros [Hn | Hm].
    + apply String.eqb_neq in Hn. now rewrite Hn.
    + rewrite Hm, andb_false_r. reflexivity.
Qed.

Lemma fetchUserData_rejection_witness :
  snd (run (ApiService.fetchUserData (JStr "octocat"))
         (set_network [Sample.unreachable] Sample.idle)) =
  Raised (Error "Network error. Please check your internet connection.")
  /\ snd (run (ApiService.fetchUserData (JStr "octocat"))
            (set_network [FetchRejected (ErrorObject "TypeError" "Load failed")]
               Sample.idle)) =
     Raised (ErrorObject "TypeError" "Load failed")
  /\ snd (run (ApiService.fetchUserData (JStr "octocat"))
            (set_network
               [FetchResolved
                  (mkResponse 200
                     (JsonRejected
                        (ErrorObject "SyntaxError" "Unexpected end of JSON input")))]
               Sample.idle)) =
     Raised (ErrorObject "SyntaxError" "Unexpected end of JSON input").
Proof.
  split; [| split].
  - apply (fetchUserData_rejection (JStr "octocat")
             (set_network [Sample.unreachable] Sample.idle)
             Sample.unreachable [] "TypeError" "Failed to fetch" eq_refl);
      [now left | reflexivity | reflexivity].
  - apply (fetchUserData_rejection (JStr "octocat")
             (set_network [FetchRejected (ErrorObject "TypeError" "Load failed")]
                Sample.idle)
             _ [] "TypeError" "Load failed" eq_refl);
      [now left | now right].
  - apply (fetchUserData_rejection (JStr "octocat")
             (set_network
                [FetchResolved
                   (mkResponse 200
                      (JsonRejected
                         (ErrorObject "SyntaxError"
                            "Unexpected end of JSON input")))]
                Sample.idle)
             _ [] "SyntaxError" "Unexpected end of JSON input" eq_refl).
    + right. exists 200. split; [lia | reflexivity].
    + left. discriminate.
Defined.



(** X4.  The small bounds of [fetchUserWithRetry].  With [maxRetries]
    zero the loop body never runs: no request is sent and [undefined],
    the initial value of [lastError], is thrown.  With [maxRetries] one
    it is a single [fetchUserData]: once the request settles, both end
    in the same world with the same record or the same error, and no
    wait is set. *)
Theorem fetchUserWithRetry_small_bounds (handle : JsVal) (w : World) :
  run (ApiService.fetchUserWithRetry handle 0) w = (w, Raised ThrownUndefined)
  /\ (forall out rest,
        network w = out :: rest ->
        run (ApiService.fetchUserWithRetry handle 1) w =
        run (ApiService.fetchUserData handle) w).
Proof.
  split; [reflexivity |].
  intros out rest Hnet. rewrite (run_fetchUserData _ _ _ _ Hnet).
  unfold ApiService.fetchUserWithRetry.
  destruct (fetchUserData_outcome_cases out) as [[u Hu] | [n [msg He]]].
  - rewrite Hu. now apply (retryLoop_success _ _ _ _ _ u _ out rest).
  - rewrite He. apply (retryLoop_last _ _ _ _ _ _ out rest Hnet).
    unfold failure. now rewrite He.
Qed.

Lemma fetchUserWithRetry_small_bounds_witness :
  let w := set_network [Sample.http 503 Sample.emptyBody] Sample.idle in
  run (ApiService.fetchUserWithRetry (JStr "ghost") 0) w
  = (w, Raised ThrownUndefined)
  /\ run (ApiService.fetchUserWithRetry (JStr "ghost") 1) w =
     run (ApiService.fetchUserData (JStr "ghost")) w.
Proof.
  intros w.
  destruct (fetchUserWithRetry_small_bounds (JStr "ghost") w) as [Hzero Hone].
  split; [exact Hzero |].
  exact (Hone (Sample.http 503 Sample.emptyBody) [] eq_refl).
Defined.

(** X5.  [processUserData] copies the id, the login, the avatar, the
    creation date and the profile address as they are, and gives each of
    the three counts the value of the body, or 0 when it is missing (or
    0): on a body whose counts are non-negative integers or missing, the
    counts of the record are non-negative integers. *)
Theorem processUserData_counts (data : RawUser) :
  countOrMissing (raw_followers data) = true ->
  countOrMissing (raw_following data) = true ->
  countOrMissing (raw_public_repos data) = true ->
  let r := ApiService.processUserData data in
  (id r = raw_id data /\ username r = raw_login data
   /\ avatar r = raw_avatar_url data /\ joinDate r = raw_created_at data
   /\ htmlUrl r = raw_html_url data)
  /\ (exists z, followers r = JNum z /\ 0 <= z
                /\ (truthy (raw_followers data) = true ->
                    raw_followers data = JNum z))
  /\ (exists z, following r = JNum z /\ 0 <= z
                /\ (truthy (raw_following data) = true ->
                    raw_following data = JNum z))
  /\ (exists z, publicRepos r = JNum z /\ 0 <= z
                /\ (truthy (raw_public_repos data) = true ->
                    raw_public_repos data = JNum z)).
Proof.
  assert (Hcount : forall v,
            countOrMissing v = true ->
            exists z, js_or v (JNum 0) = JNum z /\ 0 <= z
                      /\ (truthy v = true -> v = JNum z)).
  { intros v Hv. destruct v as [| | b | z | s |]; try discriminate.
    - exists 0. split; [reflexivity | split; [lia | discriminate]].
    - exists 0. split; [reflexivity | split; [lia | discriminate]].
    - simpl in Hv. apply Z.leb_le in Hv. unfold js_or. simpl.
      destruct (Z.eqb_spec z 0) as [-> | Hz]; simpl.
      + exists 0. split; [reflexivity | split; [lia | discriminate]].
      + exists z. split; [reflexivity | split; [assumption | reflexivity]]. }
  intros H1 H2 H3 r. subst r. simpl.
  split; [repeat split |]. split; [| split]; now apply Hcount.
Qed.

Lemma processUserData_counts_witness :
  let r := ApiService.processUserData Sample.octocatBody in
  username r = JStr "octocat"
  /\ exists z, followers r = JNum z /\ 0 <= z /\ JNum 100 = JNum z.
Proof.
  intros r.
  destruct (processUserData_counts Sample.octocatBody eq_refl eq_refl eq_refl)
    as [[_ [Hlogin _]] [[z [Hz [Hpos Hsame]]] _]].
  split; [exact Hlogin |].
  exists z. split; [exact Hz | split; [exact Hpos | exact (Hsame eq_refl)]].
Defined.

(* ================================================================== *)
(** ** More of js/domManager.js *)

Lemma tl_afterDraw (w : World) : entropy (afterDraw w) = tl (entropy w).
Proof.
  unfold afterDraw. destruct (entropy w) eqn:E; [now rewrite E | reflexivity].
Qed.

Lemma afterDraw_followBtn (w : World) : followBtn (afterDraw w) = followBtn w.
Proof. unfold afterDraw. now destruct (entropy w). Qed.

Lemma nextDraw_entropy (w1 w2 : World) :
  entropy w1 = entropy w2 -> nextDraw w1 = nextDraw w2.
Proof. unfold nextDraw. now intros ->. Qed.

Lemma statsDraws_entropy (w1 w2 : World) :
  entropy w1 = entropy w2 -> entropy (statsDraws w1) = entropy (statsDraws w2).
Proof. intros H. unfold statsDraws. now rewrite !tl_afterDraw, H. Qed.

Lemma statsDraws_followBtn (w : World) :
  followBtn (statsDraws w) = followBtn w.
Proof. unfold statsDraws. now rewrite !afterDraw_followBtn. Qed.

(** [displayUserData] on a record whose blog renders: the follow button
    is set from the draw that follows the three of [updateStats]. *)
Lemma displayUserData_run (m : Mode) (u : UserRecord) (w : World) :
  blogRenders (blog u) = true ->
  exists w',
    interp m (DomManager.displayUserData u) w = (w', Returned tt)
    /\ currentUser w' = currentUser w
    /\ isLoading w' = isLoading w
    /\ network w' = network w
    /\ entropy w' = tl (entropy (statsDraws w))
    /\ followBtn w' = followDraw (nextDraw (statsDraws w))
    /\ trace w' = (trace w ++ displayEvents u)%list.
Proof.
  intros Hblog. rewrite displayUserData_unfold.
  set (w0 := statsDraws _).
  assert (Hc : currentUser w0 = currentUser w)
    by (unfold w0; now rewrite statsDraws_currentUser).
  assert (Hl : isLoading w0 = isLoading w)
    by (unfold w0; now rewrite statsDraws_isLoading).
  assert (Hn : network w0 = network w)
    by (unfold w0; now rewrite statsDraws_network).
  assert (He : entropy w0 = entropy (statsDraws w))
    by (unfold w0; now apply statsDraws_entropy).
  assert (Ht : (trace w ++ displayEvents u)%list =
               (trace w0
                  ++ EvUpdateContact
                       (toString (js_or (email u) (JStr "Not available")))
                       (toString (js_or (company u) (JStr "Not specified")))
                  :: websiteEvents (blog u)
                  ++ [EvUpdateJoinDate (joinDate u); EvUpdateBio u])%list)
    by (unfold w0, displayEvents; rewrite statsDraws_trace; simpl;
        now rewrite <- !app_assoc).
  rewrite Ht, <- Hc, <- Hl, <- Hn, <- He, <- (nextDraw_entropy _ _ He).
  clear Hc Hl Hn He Ht. clearbody w0.
  unfold DomManager.updateDetails, DomManager.updateWebsite, websiteEvents,
    nextDraw, followDraw.
  destruct (blog u) as [| | b | z | s |];
    try (assert (z = 0) as ->
           by (unfold blogRenders, truthy, isString in Hblog;
               rewrite orb_false_r, negb_involutive in Hblog;
               now apply Z.eqb_eq));
    simpl in Hblog |- *.
  - destruct (entropy w0) eqn:E; eexists; repeat split;
      simpl; rewrite ?E, <- ?app_assoc; reflexivity.
  - destruct (entropy w0) eqn:E; eexists; repeat split;
      simpl; rewrite ?E, <- ?app_assoc; reflexivity.
  - destruct b; [discriminate |]. simpl.
    destruct (entropy w0) eqn:E; eexists; repeat split;
      simpl; rewrite ?E, <- ?app_assoc; reflexivity.
  - destruct (entropy w0) eqn:E; eexists; repeat split;
      simpl; rewrite ?E, <- ?app_assoc; reflexivity.
  - destruct (String.eqb s ""); simpl;
      destruct (entropy w0) eqn:E; eexists; repeat split;
        simpl; rewrite ?E, <- ?app_assoc; reflexivity.
  - discriminate.
Qed.

(** [displayUserData] on a record whose blog is truthy and not a string:
    [blog.startsWith] is not a function. *)
Lemma displayUserData_throws (m : Mode) (u : UserRecord) (w : World) :
  blogRenders (blog u) = false ->
  exists w',
    interp m (DomManager.displayUserData u) w =
    (w', Raised (ErrorObject "TypeError" "blog.startsWith is not a function"))
    /\ currentUser w' = currentUser w
    /\ isLoading w' = isLoading w
    /\ network w' = network w
    /\ followBtn w' = followBtn w
    /\ trace w' =
       (trace w
          ++ [EvUpdateBasicInfo u; EvUpdateStats u;
              EvUpdateContact
                (toString (js_or (email u) (JStr "Not available")))
                (toString (js_or (company u) (JStr "Not specified")));
              EvWebsiteText (toString (blog u))])%list.
Proof.
  intros Hblog. rewrite displayUserData_unfold.
  set (w0 := statsDraws _).
  assert (Hc : currentUser w0 = currentUser w)
    by (unfold w0; now rewrite statsDraws_currentUser).
  assert (Hl : isLoading w0 = isLoading w)
    by (unfold w0; now rewrite statsDraws_isLoading).
  assert (Hn : network w0 = network w)
    by (unfold w0; now rewrite statsDraws_network).
  assert (Hf : followBtn w0 = followBtn w)
    by (unfold w0; now rewrite statsDraws_followBtn).
  assert (Ht : (trace w ++ [EvUpdateBasicInfo u; EvUpdateStats u])%list
               = trace w0)
    by (unfold w0; rewrite statsDraws_trace; simpl;
        now rewrite <- !app_assoc).
  rewrite <- Hc, <- Hl, <- Hn, <- Hf.
  change (trace w ++ [EvUpdateBasicInfo u; EvUpdateStats u;
     EvUpdateContact
       (toString (js_or (email u) (JStr "Not available")))
       (toString (js_or (company u) (JStr "Not specified")));
     EvWebsiteText (toString (blog u))])%list
    with (trace w ++ [EvUpdateBasicInfo u; EvUpdateStats u]
            ++ [EvUpdateContact
                  (toString (js_or (email u) (JStr "Not available")))
                  (toString (js_or (company u) (JStr "Not specified")));
                EvWebsiteText (toString (blog u))])%list.
  rewrite app_assoc, Ht.
  clear Hc Hl Hn Hf Ht. clearbody w0.
  unfold DomManager.updateDetails, DomManager.updateWebsite.
  destruct (blog u) as [| | b | z | s |];
    try (assert (Hz : (z =? 0) = false)
           by (unfold blogRenders, truthy, isString in Hblog;
               rewrite orb_false_r, negb_involutive in Hblog;
               exact Hblog);
         unfold truthy; rewrite Hz);
    try (unfold blogRenders, isString in Hblog;
         rewrite orb_true_r in Hblog; discriminate);
    simpl in Hblog |- *; try discriminate.
  - destruct b; [| discriminate]. simpl.
    eexists; repeat split; simpl; rewrite <- ?app_assoc; reflexivity.
  - eexists; repeat split; simpl; rewrite <- ?app_assoc; reflexivity.
  - eexists; repeat split; simpl; rewrite <- ?app_assoc; reflexivity.
Qed.

Lemma panelsAfter_app (tr1 tr2 : list Event) (p : DomManager.Panels) :
  DomManager.panelsAfter (tr1 ++ tr2) p =
  DomManager.panelsAfter tr2 (DomManager.panelsAfter tr1 p).
Proof. unfold DomManager.panelsAfter. apply fold_left_app. Qed.

Lemma panelsAfter_displayEvents (u : UserRecord) (p : DomManager.Panels) :
  DomManager.panelsAfter (displayEvents u) p = p.
Proof.
  unfold displayEvents, websiteEvents.
  destruct (blog u) as [| | b | z | s |]; try reflexivity.
  destruct (String.eqb s ""); reflexivity.
Qed.

(* ================================================================== *)
(** ** More of js/app.js *)

(** The request of a load is answered with a record that renders. *)
Lemma loadBody_shows_record (m : Mode) (request : Async UserRecord)
    (w1 w2 : World) (u : UserRecord) :
  interp m request w1 = (w2, Returned u) ->
  blogRenders (blog u) = true ->
  exists w3,
    interp m (loadBody request) w1 = (w3, Returned tt)
    /\ currentUser w3 = Some u
    /\ isLoading w3 = false
    /\ network w3 = network w2
    /\ followBtn w3 = followDraw (nextDraw (statsDraws w2))
    /\ trace w3 =
       (trace w2 ++ displayEvents u
          ++ [EvShowProfileCard;
              EvShowNotification
                ("Loaded profile for " ++ toString (name u)) "success"])%list.
Proof.
  intros Hreq Hblog. unfold loadBody.
  rewrite interp_finally, interp_tryCatch, interp_bind, Hreq.
  cbn [perform bind interp step]. rewrite interp_bind.
  destruct (displayUserData_run m u (set_currentUser (Some u) w2) Hblog)
    as [w' [-> [Hcu [Hl [Hn [_ [Hf Ht]]]]]]].
  rewrite (nextDraw_entropy _ (statsDraws w2)) in Hf
    by now apply statsDraws_entropy.
  remember (displayEvents u) as shown.
  remember (followDraw (nextDraw (statsDraws w2))) as drawn.
  simpl. eexists. split; [reflexivity |]. simpl.
  split; [exact Hcu |]. split; [reflexivity |]. split; [exact Hn |].
  split; [exact Hf |].
  rewrite Ht. simpl. now rewrite <- !app_assoc.
Qed.

(** The request of a load is answered with a record that does not
    render: the record is stored, and the TypeError of the display is
    caught and reported. *)
Lemma loadBody_render_error (m : Mode) (request : Async UserRecord)
    (w1 w2 : World) (u : UserRecord) :
  interp m request w1 = (w2, Returned u) ->
  blogRenders (blog u) = false ->
  let e := ErrorObject "TypeError" "blog.startsWith is not a function" in
  exists w3,
    interp m (loadBody request) w1 = (w3, Returned tt)
    /\ currentUser w3 = Some u
    /\ isLoading w3 = false
    /\ network w3 = network w2
    /\ trace w3 =
       (trace w2
          ++ [EvUpdateBasicInfo u; EvUpdateStats u;
              EvUpdateContact
                (toString (js_or (email u) (JStr "Not available")))
                (toString (js_or (company u) (JStr "Not specified")));
              EvWebsiteText (toString (blog u));
              EvConsoleError "Error loading user:" e;
              EvShowErrorState "blog.startsWith is not a function";
              EvShowNotification "blog.startsWith is not a function"
                "error"])%list.
Proof.
  intros Hreq Hblog e. unfold loadBody.
  rewrite interp_finally, interp_tryCatch, interp_bind, Hreq.
  cbn [perform bind interp step]. rewrite interp_bind.
  destruct (displayUserData_throws m u (set_currentUser (Some u) w2) Hblog)
    as [w' [-> [Hcu [Hl [Hn [_ Ht]]]]]].
  simpl. eexists. split; [reflexivity |]. simpl.
  repeat split; try assumption.
  rewrite Ht. simpl. now rewrite <- !app_assoc.
Qed.

(** However its request settles, a load returns, with the loading flag
    lowered and the spinner replaced by the card or by the error panel. *)
Lemma loadBody_completes (m : Mode) (request : Async UserRecord)
    (w1 w2 : World) (out : FetchOutcome) :
  interp m request w1 = (w2, fetchUserData_outcome out) ->
  exists w3 evs,
    interp m (loadBody request) w1 = (w3, Returned tt)
    /\ isLoading w3 = false
    /\ network w3 = network w2
    /\ trace w3 = (trace w2 ++ evs)%list
    /\ ((forall p, DomManager.panelsAfter evs p
                   = DomManager.mkPanels true false true)
        \/ (forall p, DomManager.panelsAfter evs p
                      = DomManager.mkPanels true true false)).
Proof.
  intros Hreq.
  destruct (fetchUserData_outcome_cases out) as [[u Hu] | [n [msg He]]];
    rewrite ?Hu, ?He in Hreq.
  - destruct (blogRenders (blog u)) eqn:Hblog.
    + destruct (loadBody_shows_record m request w1 w2 u Hreq Hblog)
        as [w3 [Hrun [_ [Hl [Hn [_ Ht]]]]]].
      exists w3. eexists. repeat split; try eassumption.
      right. intros p.
      now rewrite panelsAfter_app, panelsAfter_displayEvents.
    + destruct (loadBody_render_error m request w1 w2 u Hreq Hblog)
        as [w3 [Hrun [_ [Hl [Hn Ht]]]]].
      exists w3. eexists. repeat split; try eassumption.
      left. intros p. reflexivity.
  - rewrite (loadBody_failure m request w1 w2 n msg Hreq).
    eexists. eexists. split; [reflexivity |].
    split; [reflexivity |]. split; [reflexivity |].
    split; [simpl; rewrite <- !app_assoc; reflexivity |].
    left. intros p. reflexivity.
Qed.

Lemma loadUser_run_body (handle : JsVal) (w : World) :
  isLoading w = false ->
  ApiService.isValidUsername handle = true ->
  run (ProfileCardApp.loadUser handle) w =
  run (loadBody (ApiService.fetchUserData handle))
      (log EvShowLoadingState (set_isLoading true w)).
Proof.
  intros Hload Hvalid. unfold run.
  now rewrite loadUser_unfold, interp_bind, interp_GetIsLoading, Hload, Hvalid.
Qed.

Lemma loadRandomUser_run_body (w : World) :
  isLoading w = false ->
  run ProfileCardApp.loadRandomUser w =
  run (loadBody ApiService.fetchRandomUser)
      (log EvShowLoadingState (set_isLoading true w)).
Proof.
  intros Hload. unfold run.
  now rewrite loadRandomUser_unfold, interp_bind, interp_GetIsLoading, Hload.
Qed.

Lemma run_fetchRandomUser (w : World) (out : FetchOutcome)
    (rest : list FetchOutcome) :
  network w = out :: rest ->
  run ApiService.fetchRandomUser w =
  (set_network rest
     (log (EvFetch (requestUrl (randomUsername (nextDraw w)))) (afterDraw w)),
   fetchUserData_outcome out).
Proof.
  intros Hnet. unfold run. rewrite interp_fetchRandomUser.
  apply run_fetchUserData. now rewrite afterDraw_network.
Qed.

(** A load run alone, whatever its request settles with. *)
Lemma loadUser_completes (handle : JsVal) (w : World) (out : FetchOutcome)
    (rest : list FetchOutcome) :
  isLoading w = false ->
  ApiService.isValidUsername handle = true ->
  network w = out :: rest ->
  exists w3 evs,
    run (ProfileCardApp.loadUser handle) w = (w3, Returned tt)
    /\ isLoading w3 = false
    /\ network w3 = rest
    /\ trace w3 =
       (trace w ++ [EvShowLoadingState; EvFetch (requestUrl handle)]
          ++ evs)%list
    /\ ((forall p, DomManager.panelsAfter evs p
                   = DomManager.mkPanels true false true)
        \/ (forall p, DomManager.panelsAfter evs p
                      = DomManager.mkPanels true true false)).
Proof.
  intros Hload Hvalid Hnet. rewrite (loadUser_run_body _ _ Hload Hvalid).
  set (w1 := log EvShowLoadingState (set_isLoading true w)).
  destruct (loadBody_completes ToCompletion (ApiService.fetchUserData handle)
              w1 (set_network rest (log (EvFetch (requestUrl handle)) w1)) out)
    as [w3 [evs [Hrun [Hl [Hn [Ht Hp]]]]]].
  { now apply run_fetchUserData. }
  exists w3, evs. repeat split; try assumption.
  rewrite Ht. simpl. now rewrite <- !app_assoc.
Qed.

Lemma loadRandomUser_completes (w : World) (out : FetchOutcome)
    (rest : list FetchOutcome) :
  isLoading w = false ->
  network w = out :: rest ->
  exists w3 evs,
    run ProfileCardApp.loadRandomUser w = (w3, Returned tt)
    /\ isLoading w3 = false
    /\ network w3 = rest
    /\ trace w3 =
       (trace w
          ++ [EvShowLoadingState;
              EvFetch (requestUrl (randomUsername (nextDraw w)))]
          ++ evs)%list
    /\ ((forall p, DomManager.panelsAfter evs p
                   = DomManager.mkPanels true false true)
        \/ (forall p, DomManager.panelsAfter evs p
                      = DomManager.mkPanels true true false)).
Proof.
  intros Hload Hnet. rewrite (loadRandomUser_run_body _ Hload).
  set (w1 := log EvShowLoadingState (set_isLoading true w)).
  destruct (loadBody_completes ToCompletion ApiService.fetchRandomUser w1
              (set_network rest
                 (log (EvFetch (requestUrl (randomUsername (nextDraw w1))))
                    (afterDraw w1))) out)
    as [w3 [evs [Hrun [Hl [Hn [Ht Hp]]]]]].
  { now apply run_fetchRandomUser. }
  exists w3, evs. repeat split; try assumption.
  rewrite Ht. simpl. rewrite afterDraw_trace. simpl.
  now rewrite <- !app_assoc.
Qed.

(* ================================================================== *)
(** ** X6: which handles loadUser accepts *)

Lemma trimStart_blank (s : string) :
  forallb isWhiteSpace (list_ascii_of_string s) = true -> trimStart s = "".
Proof.
  induction s as [| c s IH]; simpl; [reflexivity |].
  intros H. apply andb_prop in H as [Hc Hs]. rewrite Hc. now apply IH.
Qed.

(** X6.  [isValidUsername] accepts exactly the strings whose trimmed
    form is not empty: a string of white space only is refused.  A handle
    it accepts is requested by [loadUser] as it was given, not trimmed,
    after the loading flag is raised and the spinner shown. *)
Theorem loadUser_accepts_handle_as_given (w : World) :
  isLoading w = false ->
  (forall handle,
     ApiService.isValidUsername handle = true <->
     exists s, handle = JStr s /\ trim s <> "")
  /\ (forall s,
        forallb isWhiteSpace (list_ascii_of_string s) = true ->
        ApiService.isValidUsername (JStr s) = false)
  /\ (forall s,
        trim s <> "" ->
        fst (call (ProfileCardApp.loadUser (JStr s)) w) =
        log (EvFetch (ApiService.baseUrl ++ "/" ++ s))
            (log EvShowLoadingState (set_isLoading true w))).
Proof.
  intros Hload. split; [| split].
  - apply isValidUsername_spec.
  - intros s Hs.
    destruct (ApiService.isValidUsername (JStr s)) eqn:E; [| reflexivity].
    apply isValidUsername_spec in E as [s' [Heq Ht]].
    injection Heq as <-. exfalso. apply Ht.
    unfold trim. now rewrite (trimStart_blank s Hs).
  - intros s Hs.
    assert (Hvalid : ApiService.isValidUsername (JStr s) = true)
      by (apply isValidUsername_spec; now exists s).
    now rewrite (loadUser_call _ _ Hload Hvalid).
Qed.

Lemma loadUser_accepts_handle_as_given_witness :
  ApiService.isValidUsername (JStr "   ") = false
  /\ fst (call (ProfileCardApp.loadUser (JStr " octocat ")) Sample.idle) =
     log (EvFetch "https://api.github.com/users/ octocat ")
         (log EvShowLoadingState (set_isLoading true Sample.idle)).
Proof.
  destruct (loadUser_accepts_handle_as_given Sample.idle eq_refl)
    as [_ [Hblank Hsent]].
  split.
  - now apply Hblank.
  - apply Hsent. discriminate.
Defined.

(* ================================================================== *)
(** ** X7: a load always comes to its end *)

(** X7.  Started while no load is in flight, [loadRandomUser],
    [loadUser] (whatever the handle) and [handleRefresh] return normally
    once the request has settled, whether with a record, with an error or
    with a record the display throws on: no error escapes them, the
    loading flag is lowered again, and [handleRefresh] ends by undoing
    the animation of the refresh button. *)
Theorem load_always_completes (handle : JsVal) (w : World)
    (out : FetchOutcome) (rest : list FetchOutcome) :
  isLoading w = false ->
  network w = out :: rest ->
  (snd (run ProfileCardApp.loadRandomUser w) = Returned tt
   /\ isLoading (fst (run ProfileCardApp.loadRandomUser w)) = false)
  /\ (snd (run (ProfileCardApp.loadUser handle) w) = Returned tt
      /\ isLoading (fst (run (ProfileCardApp.loadUser handle) w)) = false)
  /\ (snd (run ProfileCardApp.handleRefresh w) = Returned tt
      /\ isLoading (fst (run ProfileCardApp.handleRefresh w)) = false
      /\ exists tr,
           trace (fst (run ProfileCardApp.handleRefresh w)) =
           (trace w ++ EvAddRefreshButtonLoading :: tr
              ++ [EvRemoveRefreshButtonLoading])%list).
Proof.
  intros Hload Hnet. split; [| split].
  - destruct (loadRandomUser_completes w out rest Hload Hnet)
      as [w3 [evs [-> [Hl _]]]].
    now split.
  - destruct (ApiService.isValidUsername handle) eqn:Hvalid.
    + destruct (loadUser_completes handle w out rest Hload Hvalid Hnet)
        as [w3 [evs [-> [Hl _]]]].
      now split.
    + unfold run. rewrite (loadUser_invalid _ _ _ Hload Hvalid).
      now split.
  - destruct (loadRandomUser_completes (log EvAddRefreshButtonLoading w)
                out rest Hload Hnet)
      as [w3 [evs [Hrun [Hl [_ [Ht _]]]]]].
    unfold run, ProfileCardApp.handleRefresh.
    rewrite interp_bind, interp_GetIsLoading, Hload.
    cbn [DomManager.addRefreshButtonLoading emit perform bind interp step].
    rewrite interp_bind.
    unfold run in Hrun. rewrite Hrun. simpl.
    repeat split; [exact Hl |].
    exists ([EvShowLoadingState;
             EvFetch (requestUrl (randomUsername (nextDraw w)))] ++ evs)%list.
    rewrite Ht. simpl. rewrite <- !app_assoc. reflexivity.
Qed.

Lemma load_always_completes_witness :
  let w := set_network [Sample.http 200 Sample.octocatBody] Sample.showing in
  (snd (run ProfileCardApp.loadRandomUser w) = Returned tt
   /\ isLoading (fst (run ProfileCardApp.loadRandomUser w)) = false)
  /\ (snd (run (ProfileCardApp.loadUser (JStr "octocat")) w) = Returned tt
      /\ isLoading (fst (run (ProfileCardApp.loadUser (JStr "octocat")) w))
         = false).
Proof.
  intros w.
  destruct (load_always_completes (JStr "octocat") w
              (Sample.http 200 Sample.octocatBody) [] eq_refl eq_refl)
    as [Hrandom [Huser _]].
  split; assumption.
Defined.

(* ================================================================== *)
(** ** X8: a load that succeeds *)

Lemma loadUser_success_run (handle : JsVal) (w : World) (out : FetchOutcome)
    (rest : list FetchOutcome) (u : UserRecord) :
  isLoading w = false ->
  ApiService.isValidUsername handle = true ->
  network w = out :: rest ->
  fetchUserData_outcome out = Returned u ->
  blogRenders (blog u) = true ->
  let w' := fst (run (ProfileCardApp.loadUser handle) w) in
  currentUser w' = Some u /\ isLoading w' = false /\ network w' = rest
  /\ trace w' =
     (trace w ++ [EvShowLoadingState; EvFetch (requestUrl handle)]
        ++ displayEvents u
        ++ [EvShowProfileCard;
            EvShowNotification ("Loaded profile for " ++ toString (name u))
              "success"])%list.
Proof.
  intros Hload Hvalid Hnet Hout Hblog w'. subst w'.
  rewrite (loadUser_run_body _ _ Hload Hvalid).
  set (w1 := log EvShowLoadingState (set_isLoading true w)).
  destruct (loadBody_shows_record ToCompletion
              (ApiService.fetchUserData handle) w1
              (set_network rest (log (EvFetch (requestUrl handle)) w1)) u)
    as [w3 [Hrun [Hcu [Hl [Hn [_ Ht]]]]]]; [| exact Hblog |].
  { rewrite <- Hout. now apply run_fetchUserData. }
  unfold run. rewrite Hrun. remember (displayEvents u) as shown. simpl.
  repeat split; try assumption.
  rewrite Ht. simpl. now rewrite <- !app_assoc.
Qed.

Lemma loadRandomUser_success_run (w : World) (out : FetchOutcome)
    (rest : list FetchOutcome) (u : UserRecord) :
  isLoading w = false ->
  network w = out :: rest ->
  fetchUserData_outcome out = Returned u ->
  blogRenders (blog u) = true ->
  let w' := fst (run ProfileCardApp.loadRandomUser w) in
  currentUser w' = Some u /\ isLoading w' = false /\ network w' = rest
  /\ trace w' =
     (trace w
        ++ [EvShowLoadingState;
            EvFetch (requestUrl (randomUsername (nextDraw w)))]
        ++ displayEvents u
        ++ [EvShowProfileCard;
            EvShowNotification ("Loaded profile for " ++ toString (name u))
              "success"])%list.
Proof.
  intros Hload Hnet Hout Hblog w'. subst w'.
  rewrite (loadRandomUser_run_body _ Hload).
  set (w1 := log EvShowLoadingState (set_isLoading true w)).
  destruct (loadBody_shows_record ToCompletion ApiService.fetchRandomUser w1
              (set_network rest
                 (log (EvFetch (requestUrl (randomUsername (nextDraw w1))))
                    (afterDraw w1))) u)
    as [w3 [Hrun [Hcu [Hl [Hn [_ Ht]]]]]]; [| exact Hblog |].
  { rewrite <- Hout. now apply run_fetchRandomUser. }
  unfold run. rewrite Hrun. remember (displayEvents u) as shown. simpl.
  repeat split; try assumption.
  rewrite Ht. simpl. rewrite afterDraw_trace. simpl.
  now rewrite <- !app_assoc.
Qed.

(** X8.  When the request of a load is answered with a record whose blog
    renders, [loadUser] (on a valid handle) and [loadRandomUser] store
    the record as [currentUser], show the spinner, send the one request,
    display the record, show the card and notify "Loaded profile for"
    followed by the name, in this order, and lower the loading flag. *)
Theorem load_success (handle : JsVal) (w : World) (out : FetchOutcome)
    (rest : list FetchOutcome) (u : UserRecord) :
  isLoading w = false ->
  network w = out :: rest ->
  fetchUserData_outcome out = Returned u ->
  blogRenders (blog u) = true ->
  let loaded :=
    (displayEvents u
       ++ [EvShowProfileCard;
           EvShowNotification ("Loaded profile for " ++ toString (name u))
             "success"])%list in
  (ApiService.isValidUsername handle = true ->
   let w' := fst (run (ProfileCardApp.loadUser handle) w) in
   currentUser w' = Some u /\ isLoading w' = false /\ network w' = rest
   /\ trace w' =
      (trace w ++ [EvShowLoadingState; EvFetch (requestUrl handle)]
         ++ loaded)%list)
  /\ (let w' := fst (run ProfileCardApp.loadRandomUser w) in
      currentUser w' = Some u /\ isLoading w' = false /\ network w' = rest
      /\ trace w' =
         (trace w
            ++ [EvShowLoadingState;
                EvFetch (requestUrl (randomUsername (nextDraw w)))]
            ++ loaded)%list).
Proof.
  intros Hload Hnet Hout Hblog loaded. split.
  - intros Hvalid.
    exact (loadUser_success_run handle w out rest u Hload Hvalid Hnet Hout
             Hblog).
  - exact (loadRandomUser_success_run w out rest u Hload Hnet Hout Hblog).
Qed.

Lemma load_success_witness :
  let w := set_network [Sample.http 200 Sample.octocatBody] Sample.idle in
  let w' := fst (run (ProfileCardApp.loadUser (JStr "octocat")) w) in
  currentUser w' = Some Sample.octocat
  /\ isLoading w' = false
  /\ trace w' =
     [EvShowLoadingState; EvFetch "https://api.github.com/users/octocat";
      EvUpdateBasicInfo Sample.octocat; EvUpdateStats Sample.octocat;
      EvUpdateContact "Not available" "@github";
      EvWebsiteText "https://github.blog";
      EvWebsiteLink "https://github.blog";
      EvUpdateJoinDate (JStr "2011-01-25T18:44:36Z");
      EvUpdateBio Sample.octocat; EvShowProfileCard;
      EvShowNotification "Loaded profile for The Octocat" "success"].
Proof.
  intros w w'.
  destruct (load_success (JStr "octocat") w (Sample.http 200 Sample.octocatBody)
              [] Sample.octocat eq_refl eq_refl eq_refl eq_refl)
    as [Huser _].
  destruct (Huser eq_refl) as [Hcu [Hl [_ Ht]]].
  split; [exact Hcu | split; [exact Hl | exact Ht]].
Defined.

(* ================================================================== *)
(** ** X9: a refresh that succeeds *)

(** X9.  With a record on display, a [refreshCurrentUser] whose request
    is answered with a record that renders stores the new record,
    displays it and notifies "Profile refreshed successfully!".  It sends
    the one request, for the handle of the old record, leaves the
    loading flag as it was and calls none of [showLoadingState],
    [showErrorState] and [showProfileCard]: the panel in view stays. *)
Theorem refreshCurrentUser_success (w : World) (old u : UserRecord)
    (out : FetchOutcome) (rest : list FetchOutcome) :
  currentUser w = Some old ->
  network w = out :: rest ->
  fetchUserData_outcome out = Returned u ->
  blogRenders (blog u) = true ->
  let w' := fst (run ProfileCardApp.refreshCurrentUser w) in
  snd (run ProfileCardApp.refreshCurrentUser w) = Returned tt
  /\ currentUser w' = Some u
  /\ isLoading w' = isLoading w
  /\ network w' = rest
  /\ trace w' =
     (trace w ++ [EvFetch (requestUrl (username old))] ++ displayEvents u
        ++ [EvShowNotification "Profile refreshed successfully!" "success"])%list
  /\ forall p,
       DomManager.panelsAfter (trace w') p = DomManager.panelsAfter (trace w) p.
Proof.
  intros Hcu Hnet Hout Hblog w'.
  assert (Hrun : exists w3,
            run ProfileCardApp.refreshCurrentUser w = (w3, Returned tt)
            /\ currentUser w3 = Some u
            /\ isLoading w3 = isLoading w
            /\ network w3 = rest
            /\ trace w3 =
               (trace w ++ [EvFetch (requestUrl (username old))]
                  ++ displayEvents u
                  ++ [EvShowNotification "Profile refreshed successfully!"
                        "success"])%list).
  { unfold run, ProfileCardApp.refreshCurrentUser.
    rewrite interp_bind, interp_GetCurrentUser, Hcu.
    rewrite interp_tryCatch, interp_bind.
    rewrite (interp_currentUserField _ _ _ _ old Hcu), interp_bind.
    fold (run (ApiService.fetchUserData (username old)) w).
    rewrite (run_fetchUserData _ _ out rest Hnet), Hout.
    cbn [perform bind interp step]. rewrite interp_bind.
    destruct (displayUserData_run ToCompletion u
                (set_currentUser (Some u)
                   (set_network rest
                      (log (EvFetch (requestUrl (username old))) w))) Hblog)
      as [w3 [-> [Hc [Hl [Hn [_ [_ Ht]]]]]]].
    remember (displayEvents u) as shown.
    simpl. eexists. split; [reflexivity |]. simpl.
    repeat split; try assumption.
    rewrite Ht. simpl. now rewrite <- !app_assoc. }
  destruct Hrun as [w3 [Hrun [Hc [Hl [Hn Ht]]]]].
  subst w'. rewrite Hrun. simpl.
  repeat split; try assumption.
  intros p. rewrite Ht, !panelsAfter_app, panelsAfter_displayEvents.
  reflexivity.
Qed.

Lemma refreshCurrentUser_success_witness :
  let w := set_network [Sample.http 200 Sample.octocatBody] Sample.showing in
  let w' := fst (run ProfileCardApp.refreshCurrentUser w) in
  currentUser w' = Some Sample.octocat
  /\ isLoading w' = false
  /\ fetches (trace w') = ["https://api.github.com/users/octocat"].
Proof.
  intros w w'.
  destruct (refreshCurrentUser_success w Sample.octocat Sample.octocat
              (Sample.http 200 Sample.octocatBody) []
              eq_refl eq_refl eq_refl eq_refl)
    as [_ [Hcu [Hl [_ [Ht _]]]]].
  split; [exact Hcu | split; [exact Hl |]].
  unfold w'. rewrite Ht. reflexivity.
Defined.

(* ================================================================== *)
(** ** X10: a record the display throws on *)

(** X10.  When the request of [loadUser] or of [loadRandomUser] is
    answered with a record whose blog is truthy and not a string, the
    record is stored as [currentUser] before [displayUserData] throws on
    [blog.startsWith]; the TypeError is caught, and the load ends on the
    error panel and an error notification with the message
    "blog.startsWith is not a function", the loading flag lowered. *)
Theorem load_render_error (handle : JsVal) (w : World) (out : FetchOutcome)
    (rest : list FetchOutcome) (u : UserRecord) :
  isLoading w = false ->
  network w = out :: rest ->
  fetchUserData_outcome out = Returned u ->
  blogRenders (blog u) = false ->
  let message := "blog.startsWith is not a function" in
  (ApiService.isValidUsername handle = true ->
   let w' := fst (run (ProfileCardApp.loadUser handle) w) in
   currentUser w' = Some u /\ isLoading w' = false
   /\ exists tr,
        trace w' =
        (tr ++ [EvShowErrorState message;
                EvShowNotification message "error"])%list)
  /\ (let w' := fst (run ProfileCardApp.loadRandomUser w) in
      currentUser w' = Some u /\ isLoading w' = false
      /\ exists tr,
           trace w' =
           (tr ++ [EvShowErrorState message;
                   EvShowNotification message "error"])%list).
Proof.
  intros Hload Hnet Hout Hblog message. split.
  - intros Hvalid w'. subst w'.
    rewrite (loadUser_run_body _ _ Hload Hvalid).
    set (w1 := log EvShowLoadingState (set_isLoading true w)).
    destruct (loadBody_render_error ToCompletion
                (ApiService.fetchUserData handle) w1
                (set_network rest (log (EvFetch (requestUrl handle)) w1)) u)
      as [w3 [Hrun [Hcu [Hl [Hn Ht]]]]]; [| exact Hblog |].
    { rewrite <- Hout. now apply run_fetchUserData. }
    unfold run. rewrite Hrun. simpl.
    repeat split; try assumption.
    eexists. rewrite Ht.
    change [EvUpdateBasicInfo u; EvUpdateStats u;
            EvUpdateContact
              (toString (js_or (email u) (JStr "Not available")))
              (toString (js_or (company u) (JStr "Not specified")));
            EvWebsiteText (toString (blog u));
            EvConsoleError "Error loading user:"
              (ErrorObject "TypeError" "blog.startsWith is not a function");
            EvShowErrorState "blog.startsWith is not a function";
            EvShowNotification "blog.startsWith is not a function" "error"]
      with ([EvUpdateBasicInfo u; EvUpdateStats u;
             EvUpdateContact
               (toString (js_or (email u) (JStr "Not available")))
               (toString (js_or (company u) (JStr "Not specified")));
             EvWebsiteText (toString (blog u));
             EvConsoleError "Error loading user:"
               (ErrorObject "TypeError" "blog.startsWith is not a function")]
            ++ [EvShowErrorState message;
                EvShowNotification message "error"])%list.
    rewrite app_assoc. reflexivity.
  - intros w'. subst w'.
    rewrite (loadRandomUser_run_body _ Hload).
    set (w1 := log EvShowLoadingState (set_isLoading true w)).
    destruct (loadBody_render_error ToCompletion ApiService.fetchRandomUser w1
                (set_network rest
                   (log (EvFetch (requestUrl (randomUsername (nextDraw w1))))
                      (afterDraw w1))) u)
      as [w3 [Hrun [Hcu [Hl [Hn Ht]]]]]; [| exact Hblog |].
    { rewrite <- Hout. now apply run_fetchRandomUser. }
    unfold run. rewrite Hrun. simpl.
    repeat split; try assumption.
    eexists. rewrite Ht.
    change [EvUpdateBasicInfo u; EvUpdateStats u;
            EvUpdateContact
              (toString (js_or (email u) (JStr "Not available")))
              (toString (js_or (company u) (JStr "Not specified")));
            EvWebsiteText (toString (blog u));
            EvConsoleError "Error loading user:"
              (ErrorObject "TypeError" "blog.startsWith is not a function");
            EvShowErrorState "blog.startsWith is not a function";
            EvShowNotification "blog.startsWith is not a function" "error"]
      with ([EvUpdateBasicInfo u; EvUpdateStats u;
             EvUpdateContact
               (toString (js_or (email u) (JStr "Not available")))
               (toString (js_or (company u) (JStr "Not specified")));
             EvWebsiteText (toString (blog u));
             EvConsoleError "Error loading user:"
               (ErrorObject "TypeError" "blog.startsWith is not a function")]
            ++ [EvShowErrorState message;
                EvShowNotification message "error"])%list.
    rewrite app_assoc. reflexivity.
Qed.

Lemma load_render_error_witness :
  let w := set_network [Sample.http 200 Sample.oddBody] Sample.showing in
  let w' := fst (run (ProfileCardApp.loadUser (JStr "odd")) w) in
  currentUser w' = Some (ApiService.processUserData Sample.oddBody)
  /\ isLoading w' = false
  /\ exists tr,
       trace w' =
       (tr ++ [EvShowErrorState "blog.startsWith is not a function";
               EvShowNotification "blog.startsWith is not a function"
                 "error"])%list.
Proof.
  intros w w'.
  exact (proj1 (load_render_error (JStr "odd") w
                  (Sample.http 200 Sample.oddBody) []
                  (ApiService.processUserData Sample.oddBody)
                  eq_refl eq_refl eq_refl eq_refl) eq_refl).
Defined.

(* ================================================================== *)
(** ** X11: the panel in view *)

(** X11.  Of the three state containers, a load leaves exactly one in
    view, whatever was in view before: the spinner alone while the
    request is awaited, and once it has settled the error panel alone
    (always so when the request failed, and for an invalid handle) or
    the card alone (always so when a record that renders came back);
    never the spinner. *)
Theorem load_panels (handle : JsVal) (w : World) (out : FetchOutcome)
    (rest : list FetchOutcome) (p : DomManager.Panels) :
  isLoading w = false ->
  network w = out :: rest ->
  let spinner := DomManager.mkPanels false true true in
  let errorPanel := DomManager.mkPanels true false true in
  let card := DomManager.mkPanels true true false in
  let after := fun t => DomManager.panelsAfter (trace (fst t)) p in
  (after (call ProfileCardApp.loadRandomUser w) = spinner
   /\ (after (run ProfileCardApp.loadRandomUser w) = errorPanel
       \/ after (run ProfileCardApp.loadRandomUser w) = card))
  /\ (ApiService.isValidUsername handle = true ->
      after (call (ProfileCardApp.loadUser handle) w) = spinner
      /\ (after (run (ProfileCardApp.loadUser handle) w) = errorPanel
          \/ after (run (ProfileCardApp.loadUser handle) w) = card)
      /\ (forall e, failure out = Some e ->
            after (run (ProfileCardApp.loadUser handle) w) = errorPanel)
      /\ (forall u, fetchUserData_outcome out = Returned u ->
            blogRenders (blog u) = true ->
            after (run (ProfileCardApp.loadUser handle) w) = card))
  /\ (ApiService.isValidUsername handle = false ->
      after (run (ProfileCardApp.loadUser handle) w) = errorPanel).
Proof.
  intros Hload Hnet spinner errorPanel card after. subst after. cbn beta.
  split; [| split].
  - split.
    + rewrite (loadRandomUser_call w Hload). simpl.
      rewrite afterDraw_trace. simpl. now rewrite !panelsAfter_app.
    + destruct (loadRandomUser_completes w out rest Hload Hnet)
        as [w3 [evs [-> [_ [_ [Ht [Hp | Hp]]]]]]]; simpl; rewrite Ht;
        rewrite !panelsAfter_app, Hp; [now left | now right].
  - intros Hvalid. split; [| split; [| split]].
    + rewrite (loadUser_call handle w Hload Hvalid). simpl.
      now rewrite !panelsAfter_app.
    + destruct (loadUser_completes handle w out rest Hload Hvalid Hnet)
        as [w3 [evs [-> [_ [_ [Ht [Hp | Hp]]]]]]]; simpl; rewrite Ht;
        rewrite !panelsAfter_app, Hp; [now left | now right].
    + intros e Hfail.
      destruct (failure_error_object _ _ Hfail) as [n [message ->]].
      rewrite (loadUser_failure handle w out rest n message Hload Hvalid Hnet
                 Hfail).
      simpl. now rewrite !panelsAfter_app.
    + intros u Hout Hblog.
      destruct (loadUser_success_run handle w out rest u Hload Hvalid Hnet
                  Hout Hblog) as [_ [_ [_ Ht]]].
      rewrite Ht.
      rewrite !panelsAfter_app, panelsAfter_displayEvents. reflexivity.
  - intros Hvalid. unfold run. rewrite (loadUser_invalid _ _ _ Hload Hvalid).
    simpl. now rewrite panelsAfter_app.
Qed.

Lemma load_panels_witness :
  let w := set_network [Sample.http 404 Sample.emptyBody] Sample.idle in
  let p := DomManager.mkPanels true true false in
  DomManager.panelsAfter
    (trace (fst (call (ProfileCardApp.loadUser (JStr "ghost")) w))) p
  = DomManager.mkPanels false true true
  /\ DomManager.panelsAfter
       (trace (fst (run (ProfileCardApp.loadUser (JStr "ghost")) w))) p
     = DomManager.mkPanels true false true.
Proof.
  intros w p.
  destruct (load_panels (JStr "ghost") w (Sample.http 404 Sample.emptyBody) []
              p eq_refl eq_refl) as [_ [Hvalid _]].
  destruct (Hvalid eq_refl) as [Hcall [_ [Hfail _]]].
  split; [exact Hcall |].
  exact (Hfail (Error "User not found. Please try again.") eq_refl).
Defined.

(* ================================================================== *)
(** ** X12, X13: follow and message with a record *)

(** X12.  With a record on display, [handleFollow] flips the follow
    button and emits one success notification naming the record:
    "Following ... successfully!" when the button now reads Following,
    "Unfollowed ... successfully!" otherwise.  It sends no request and
    changes neither field of the controller.  Two clicks bring the
    button back and add one notification each. *)
Theorem handleFollow_toggles (w : World) (u : UserRecord) :
  currentUser w = Some u ->
  let notice := fun now : bool =>
    EvShowNotification
      ((if now then "Following " else "Unfollowed ")
       ++ toString (name u) ++ " successfully!") "success" in
  run ProfileCardApp.handleFollow w =
  (log (notice (negb (followBtn w))) (set_followBtn (negb (followBtn w)) w),
   Returned tt)
  /\ (let w2 := fst (run ProfileCardApp.handleFollow
                       (fst (run ProfileCardApp.handleFollow w))) in
      followBtn w2 = followBtn w
      /\ currentUser w2 = currentUser w
      /\ isLoading w2 = isLoading w
      /\ network w2 = network w
      /\ trace w2 =
         (trace w ++ [notice (negb (followBtn w)); notice (followBtn w)])%list).
Proof.
  intros Hcu notice.
  assert (Hone : forall w0,
            currentUser w0 = Some u ->
            run ProfileCardApp.handleFollow w0 =
            (log (notice (negb (followBtn w0)))
                 (set_followBtn (negb (followBtn w0)) w0), Returned tt)).
  { intros w0 H0. unfold run, ProfileCardApp.handleFollow.
    rewrite interp_bind, interp_GetCurrentUser, H0.
    unfold DomManager.toggleFollow. subst notice.
    destruct w0 as [cu il fb tr en net]. simpl in H0. subst cu.
    destruct fb; reflexivity. }
  split; [now apply Hone |].
  rewrite (Hone w Hcu). simpl fst. rewrite Hone by exact Hcu.
  simpl. rewrite negb_involutive, <- app_assoc. repeat split.
Qed.

Lemma handleFollow_toggles_witness :
  let w2 := fst (run ProfileCardApp.handleFollow
                   (fst (run ProfileCardApp.handleFollow Sample.showing))) in
  followBtn w2 = false
  /\ trace w2 =
     [EvShowNotification "Following The Octocat successfully!" "success";
      EvShowNotification "Unfollowed The Octocat successfully!" "success"].
Proof.
  intros w2.
  destruct (handleFollow_toggles Sample.showing Sample.octocat eq_refl)
    as [_ [Hbtn [_ [_ [_ Ht]]]]].
  split; [exact Hbtn | exact Ht].
Defined.

(** X13.  With a record on display, [handleMessage] raises one alert,
    "This would open a message dialog to" followed by the name and by
    the handle as "(@handle)", and nothing else: no request, no
    notification, no change of state. *)
Theorem handleMessage_alerts (w : World) (u : UserRecord) :
  currentUser w = Some u ->
  run ProfileCardApp.handleMessage w =
  (log (EvAlert ("This would open a message dialog to " ++ toString (name u)
                 ++ " (@" ++ toString (username u) ++ ")")) w,
   Returned tt).
Proof.
  intros Hcu. unfold run, ProfileCardApp.handleMessage.
  rewrite interp_bind, interp_GetCurrentUser, Hcu.
  rewrite interp_bind, (interp_currentUserField _ _ _ _ u Hcu).
  rewrite interp_bind, (interp_currentUserField _ _ _ _ u Hcu).
  reflexivity.
Qed.

Lemma handleMessage_alerts_witness :
  run ProfileCardApp.handleMessage Sample.showing =
  (log (EvAlert "This would open a message dialog to The Octocat (@octocat)")
       Sample.showing,
   Returned tt).
Proof.
  exact (handleMessage_alerts Sample.showing Sample.octocat eq_refl).
Defined.

(* ================================================================== *)
(** ** X14, X15, X16: what the display shows *)

(** X14.  [updateWebsite] hides the link for a falsy blog; for a
    non-empty string it shows the string as text and links to it, as it
    is when it starts with "http" and behind "https://" otherwise, so
    the address of the link always starts with "http"; for a truthy
    value that is not a string it throws a TypeError after writing the
    text. *)
Theorem updateWebsite_link (v : JsVal) (w : World) :
  (truthy v = false ->
   run (DomManager.updateWebsite v) w = (log EvWebsiteHidden w, Returned tt))
  /\ (forall s,
        v = JStr s -> s <> "" ->
        exists href,
          run (DomManager.updateWebsite v) w =
          (log (EvWebsiteLink href) (log (EvWebsiteText s) w), Returned tt)
          /\ prefix "http" href = true
          /\ (prefix "http" s = true -> href = s)
          /\ (prefix "http" s = false -> href = "https://" ++ s))
  /\ (truthy v = true -> isString v = false ->
      run (DomManager.updateWebsite v) w =
      (log (EvWebsiteText (toString v)) w,
       Raised (ErrorObject "TypeError" "blog.startsWith is not a function"))).
Proof.
  unfold run, DomManager.updateWebsite. split; [| split].
  - intros ->. reflexivity.
  - intros s -> Hs. apply String.eqb_neq in Hs. simpl. rewrite Hs. simpl.
    destruct (prefix "http" s) eqn:Hp.
    + exists s. repeat split; [exact Hp | discriminate].
    + exists ("https://" ++ s). repeat split; discriminate.
  - intros Ht Hstr. rewrite Ht.
    destruct v as [| | b | z | s |]; try discriminate; reflexivity.
Qed.

Lemma updateWebsite_link_witness :
  run (DomManager.updateWebsite JNull) Sample.idle =
  (log EvWebsiteHidden Sample.idle, Returned tt)
  /\ (exists href,
        run (DomManager.updateWebsite (JStr "github.blog")) Sample.idle =
        (log (EvWebsiteLink href) (log (EvWebsiteText "github.blog") Sample.idle),
         Returned tt)
        /\ href = "https://github.blog")
  /\ snd (run (DomManager.updateWebsite (JNum 42)) Sample.idle) =
     Raised (ErrorObject "TypeError" "blog.startsWith is not a function").
Proof.
  split; [| split].
  - exact (proj1 (updateWebsite_link JNull Sample.idle) eq_refl).
  - destruct (proj1 (proj2 (updateWebsite_link (JStr "github.blog")
                              Sample.idle)) "github.blog" eq_refl)
      as [href [Hrun [_ [_ Hplain]]]]; [discriminate |].
    exists href. split; [exact Hrun | exact (Hplain eq_refl)].
  - now rewrite (proj2 (proj2 (updateWebsite_link (JNum 42) Sample.idle))
                   eq_refl eq_refl).
Defined.

(** X15.  [displayUserData], on a record whose blog renders, returns
    after writing the basic information, the counts, the contact
    details, the website, the join date and the bio, in this order, and
    then sets the follow button from a fresh draw.  The three animations
    of the counts take a draw each, so the display takes four draws and
    the button reads Following exactly when the fourth is above 1/2,
    whatever it read before.  The display touches neither field of the
    controller and sends nothing. *)
Theorem displayUserData_resets_follow (u : UserRecord) (w : World) :
  blogRenders (blog u) = true ->
  let w' := fst (run (DomManager.displayUserData u) w) in
  snd (run (DomManager.displayUserData u) w) = Returned tt
  /\ followBtn w' = greater (nth 3 (entropy w) (mkDouble 0 0)) (mkDouble 1 (-1))
  /\ entropy w' = skipn 4 (entropy w)
  /\ trace w' = (trace w ++ displayEvents u)%list
  /\ currentUser w' = currentUser w
  /\ isLoading w' = isLoading w
  /\ network w' = network w.
Proof.
  intros Hblog w'. subst w'. unfold run.
  destruct (displayUserData_run ToCompletion u w Hblog)
    as [w' [-> [Hcu [Hl [Hn [He [Hf Ht]]]]]]].
  simpl. rewrite Hf, He.
  unfold followDraw, nextDraw, statsDraws. rewrite !tl_afterDraw.
  split; [reflexivity |].
  split; [now destruct (entropy w) as [| a [| b [| c [| d l]]]] |].
  split; [now destruct (entropy w) as [| a [| b [| c [| d l]]]] |].
  repeat split; assumption.
Qed.

(** The first three draws are above 1/2 and the fourth is below. *)
Lemma displayUserData_resets_follow_witness :
  let w := mkWorld None false true []
             [mkDouble 3 (-2); mkDouble 3 (-2); mkDouble 3 (-2);
              mkDouble 1 (-2); mkDouble 3 (-2)] [] in
  let w' := fst (run (DomManager.displayUserData Sample.octocat) w) in
  followBtn w' = false
  /\ entropy w' = [mkDouble 3 (-2)]
  /\ trace w' =
     [EvUpdateBasicInfo Sample.octocat; EvUpdateStats Sample.octocat;
      EvUpdateContact "Not available" "@github";
      EvWebsiteText "https://github.blog";
      EvWebsiteLink "https://github.blog";
      EvUpdateJoinDate (JStr "2011-01-25T18:44:36Z");
      EvUpdateBio Sample.octocat].
Proof.
  intros w w'.
  destruct (displayUserData_resets_follow Sample.octocat w eq_refl)
    as [_ [Hf [He [Ht _]]]].
  split; [exact Hf | split; [exact He | exact Ht]].
Defined.

(** X16.  A body without email, company and blog is rendered, through
    [processUserData] and [updateDetails], as the texts "Not available"
    and "Not specified" and a hidden website link, followed by the join
    date of the body. *)
Theorem missing_details_shown (data : RawUser) (w : World) :
  truthy (raw_email data) = false ->
  truthy (raw_company data) = false ->
  truthy (raw_blog data) = false ->
  snd (run (DomManager.updateDetails (ApiService.processUserData data)) w)
  = Returned tt
  /\ trace (fst (run (DomManager.updateDetails
                        (ApiService.processUserData data)) w)) =
     (trace w ++ [EvUpdateContact "Not available" "Not specified";
                  EvWebsiteHidden;
                  EvUpdateJoinDate (raw_created_at data)])%list.
Proof.
  intros He Hc Hb.
  unfold run, DomManager.updateDetails, DomManager.updateWebsite,
    ApiService.processUserData, js_or.
  simpl. rewrite He, Hc, Hb. simpl.
  split; [reflexivity |]. now rewrite <- !app_assoc.
Qed.

Lemma missing_details_shown_witness :
  trace (fst (run (DomManager.updateDetails
                     (ApiService.processUserData Sample.emptyBody))
                Sample.idle)) =
  [EvUpdateContact "Not available" "Not specified"; EvWebsiteHidden;
   EvUpdateJoinDate JUndefined].
Proof.
  exact (proj2 (missing_details_shown Sample.emptyBody Sample.idle
                  eq_refl eq_refl eq_refl)).
Defined.

(* ================================================================== *)
(** ** X17: loads while a load is in flight *)

(** While the loading flag is up, a click or a guarded load keeps it up,
    sends nothing and keeps the record. *)
Lemma handlerOf_in_flight (a : Ask) (w : World) :
  isLoading w = true ->
  let w' := fst (call (handlerOf a) w) in
  isLoading w' = true
  /\ fetches (trace w') = fetches (trace w)
  /\ currentUser w' = currentUser w.
Proof.
  intros Hup w'. subst w'. unfold call.
  destruct a as [| | | | | handle]; cbn [handlerOf].
  - now rewrite handleRefresh_guard.
  - unfold ProfileCardApp.handleRetry. now rewrite loadRandomUser_guard.
  - unfold ProfileCardApp.handleFollow.
    rewrite interp_bind, interp_GetCurrentUser.
    destruct (currentUser w) as [u |] eqn:Hcu;
      [| simpl; repeat split; assumption].
    unfold DomManager.toggleFollow.
    destruct w as [cu il fb tr en net]. simpl in Hcu, Hup. subst cu il.
    destruct fb; simpl; rewrite fetches_app; simpl;
      now rewrite app_nil_r.
  - unfold ProfileCardApp.handleMessage.
    rewrite interp_bind, interp_GetCurrentUser.
    destruct (currentUser w) as [u |] eqn:Hcu;
      [| simpl; repeat split; assumption].
    rewrite interp_bind, (interp_currentUserField _ _ _ _ u Hcu).
    rewrite interp_bind, (interp_currentUserField _ _ _ _ u Hcu).
    simpl. rewrite fetches_app. simpl. now rewrite app_nil_r.
  - now rewrite loadRandomUser_guard.
  - now rewrite loadUser_guard.
Qed.

Lemma served_in_flight (asks : list Ask) (w : World) :
  isLoading w = true ->
  isLoading (served asks w) = true
  /\ fetches (trace (served asks w)) = fetches (trace w)
  /\ currentUser (served asks w) = currentUser w.
Proof.
  revert w. induction asks as [| a rest IH]; intros w Hup.
  - repeat split. exact Hup.
  - destruct (handlerOf_in_flight a w Hup) as [Hup' [Hf Hcu]].
    destruct (IH _ Hup') as [Hup2 [Hf2 Hcu2]]. simpl.
    split; [exact Hup2 |].
    split; [now rewrite Hf2 | now rewrite Hcu2].
Qed.

(** X17.  Once [loadRandomUser], [loadUser] (on a valid handle) or
    [handleRefresh] has sent its request, the loading flag is up, and it
    stays up through any sequence of clicks on the four buttons and of
    calls of [loadRandomUser] and [loadUser] that comes before the
    request settles: none of them sends a request or changes the stored
    record, and after them [loadRandomUser], [loadUser] (valid handle or
    not), [handleRefresh] and [handleRetry] still return at once and
    leave the world as it is.  ([destroy] and [refreshCurrentUser] are
    not among these calls.) *)
Theorem in_flight_load_blocks_loads (handle other : JsVal) (asks : list Ask)
    (w w1 : World) :
  isLoading w = false ->
  w1 = fst (call ProfileCardApp.loadRandomUser w)
  \/ (ApiService.isValidUsername handle = true
      /\ w1 = fst (call (ProfileCardApp.loadUser handle) w))
  \/ w1 = fst (call ProfileCardApp.handleRefresh w) ->
  let w2 := served asks w1 in
  isLoading w1 = true
  /\ List.length (fetches (trace w1)) = S (List.length (fetches (trace w)))
  /\ isLoading w2 = true
  /\ fetches (trace w2) = fetches (trace w1)
  /\ currentUser w2 = currentUser w1
  /\ call ProfileCardApp.loadRandomUser w2 = (w2, Returned tt)
  /\ call (ProfileCardApp.loadUser other) w2 = (w2, Returned tt)
  /\ call ProfileCardApp.handleRefresh w2 = (w2, Returned tt)
  /\ call ProfileCardApp.handleRetry w2 = (w2, Returned tt).
Proof.
  intros Hload Hw1 w2.
  assert (Hup : isLoading w1 = true
                /\ List.length (fetches (trace w1))
                   = S (List.length (fetches (trace w)))).
  { destruct Hw1 as [-> | [[Hvalid ->] | ->]].
    - rewrite (loadRandomUser_call w Hload). simpl.
      rewrite afterDraw_isLoading, afterDraw_trace. simpl.
      rewrite !fetches_app, !length_app. simpl. split; [reflexivity | lia].
    - rewrite (loadUser_call handle w Hload Hvalid). simpl.
      rewrite !fetches_app, !length_app. simpl. split; [reflexivity | lia].
    - destruct (handleRefresh_call w Hload) as [k ->]. simpl.
      rewrite afterDraw_isLoading, afterDraw_trace. simpl.
      rewrite !fetches_app, !length_app. simpl. split; [reflexivity | lia]. }
  destruct Hup as [Hup Hcount].
  destruct (served_in_flight asks w1 Hup) as [Hup2 [Hf2 Hcu2]].
  fold w2 in Hup2, Hf2, Hcu2. clearbody w2.
  split; [exact Hup |]. split; [exact Hcount |].
  split; [exact Hup2 |]. split; [exact Hf2 |]. split; [exact Hcu2 |].
  split; [now apply loadRandomUser_guard |].
  split; [now apply loadUser_guard |].
  split; [now apply handleRefresh_guard |].
  now apply loadRandomUser_guard.
Qed.

(** [octocat] is on display and a load of [defunkt] is in flight: a
    click on follow, one on refresh, one on message and a load of the
    empty handle send nothing, and a further click on refresh does
    nothing. *)
Lemma in_flight_load_blocks_loads_witness :
  let w1 := fst (call (ProfileCardApp.loadUser (JStr "defunkt"))
                   Sample.showing) in
  let w2 := served [AskFollow; AskRefresh; AskMessage; AskLoadUser (JStr "")]
              w1 in
  isLoading w2 = true
  /\ fetches (trace w2) = ["https://api.github.com/users/defunkt"]
  /\ followBtn w2 = true
  /\ call (ProfileCardApp.loadUser (JStr "")) w2 = (w2, Returned tt)
  /\ call ProfileCardApp.handleRefresh w2 = (w2, Returned tt).
Proof.
  intros w1 w2.
  destruct (in_flight_load_blocks_loads (JStr "defunkt") (JStr "")
              [AskFollow; AskRefresh; AskMessage; AskLoadUser (JStr "")]
              Sample.showing w1 eq_refl)
    as [_ [_ [Hup [Hf [_ [_ [Huser [Hrefresh _]]]]]]]].
  - right. left. split; reflexivity.
  - split; [exact Hup |]. split; [exact Hf |]. split; [reflexivity |].
    split; [exact Huser | exact Hrefresh].
Defined.

(* ================================================================== *)
(** ** X18: destroy and a load in flight *)

Lemma settle_loadBody_success (url : string) (out : FetchOutcome)
    (u : UserRecord) (w : World) :
  fetchUserData_outcome out = Returned u ->
  blogRenders (blog u) = true ->
  exists w3,
    settle (Pending (Fetch url) (fun x => loadBody (afterFetch x))) out w =
    (w3, Returned tt)
    /\ currentUser w3 = Some u
    /\ trace w3 =
       (trace w ++ displayEvents u
          ++ [EvShowProfileCard;
              EvShowNotification
                ("Loaded profile for " ++ toString (name u)) "success"])%list.
Proof.
  intros Hout Hblog. unfold settle, call.
  destruct (loadBody_shows_record UntilAwait (afterFetch out) w w u)
    as [w3 [Hrun [Hcu [_ [_ [_ Ht]]]]]]; [| exact Hblog |].
  { now rewrite interp_afterFetch, Hout. }
  exists w3. repeat split; assumption.
Qed.

(** X18.  [destroy] clears [currentUser] and lowers the loading flag,
    and that is all: it does not cancel a load in flight.  After a
    [destroy] during a [loadUser], the follow and message handlers do
    nothing and the refresh button starts a second request; and when the
    request of the first load is then answered with a record, that record
    is stored as [currentUser], displayed and notified all the same. *)
Theorem destroy_keeps_load_in_flight (handle : JsVal) (w : World)
    (out : FetchOutcome) (u : UserRecord) :
  isLoading w = false ->
  ApiService.isValidUsername handle = true ->
  fetchUserData_outcome out = Returned u ->
  blogRenders (blog u) = true ->
  let w1 := fst (call (ProfileCardApp.loadUser handle) w) in
  let pending := snd (call (ProfileCardApp.loadUser handle) w) in
  let w2 := fst (run ProfileCardApp.destroy w1) in
  (currentUser w2 = None /\ isLoading w2 = false /\ trace w2 = trace w1
   /\ followBtn w2 = followBtn w1 /\ network w2 = network w1)
  /\ run ProfileCardApp.handleFollow w2 = (w2, Returned tt)
  /\ run ProfileCardApp.handleMessage w2 = (w2, Returned tt)
  /\ List.length
       (fetches (trace (fst (call ProfileCardApp.handleRefresh w2))))
     = S (List.length (fetches (trace w1)))
  /\ (let w3 := fst (settle pending out w2) in
      currentUser w3 = Some u
      /\ trace w3 =
         (trace w1 ++ displayEvents u
            ++ [EvShowProfileCard;
                EvShowNotification
                  ("Loaded profile for " ++ toString (name u))
                  "success"])%list).
Proof.
  intros Hload Hvalid Hout Hblog w1 pending w2.
  assert (Hw2 : w2 = set_isLoading false (set_currentUser None w1))
    by reflexivity.
  assert (Hfields : currentUser w2 = None /\ isLoading w2 = false
                    /\ trace w2 = trace w1 /\ followBtn w2 = followBtn w1
                    /\ network w2 = network w1)
    by (rewrite Hw2; repeat split).
  destruct Hfields as [Hcu [Hl [Ht [Hf Hn]]]].
  clear Hw2. clearbody w2.
  split; [repeat split; assumption |].
  split.
  { unfold run, ProfileCardApp.handleFollow.
    now rewrite interp_bind, interp_GetCurrentUser, Hcu. }
  split.
  { unfold run, ProfileCardApp.handleMessage.
    now rewrite interp_bind, interp_GetCurrentUser, Hcu. }
  split.
  { destruct (handleRefresh_call w2 Hl) as [k ->]. simpl.
    rewrite afterDraw_trace. simpl. rewrite !fetches_app, !length_app, Ht.
    simpl. lia. }
  subst pending. rewrite (loadUser_call handle w Hload Hvalid). simpl snd.
  destruct (settle_loadBody_success (requestUrl handle) out u w2 Hout Hblog)
    as [w3 [Hsettle [Hcu3 Ht3]]].
  intros w3'. assert (Hw3 : w3' = w3) by exact (f_equal fst Hsettle).
  rewrite Hw3. split; [exact Hcu3 |]. now rewrite Ht3, Ht.
Qed.

Lemma destroy_keeps_load_in_flight_witness :
  let w1 := fst (call (ProfileCardApp.loadUser (JStr "octocat")) Sample.idle) in
  let pending :=
    snd (call (ProfileCardApp.loadUser (JStr "octocat")) Sample.idle) in
  let w2 := fst (run ProfileCardApp.destroy w1) in
  isLoading w1 = true
  /\ isLoading w2 = false
  /\ currentUser
       (fst (settle pending (Sample.http 200 Sample.octocatBody) w2))
     = Some Sample.octocat.
Proof.
  intros w1 pending w2.
  destruct (destroy_keeps_load_in_flight (JStr "octocat") Sample.idle
              (Sample.http 200 Sample.octocatBody) Sample.octocat
              eq_refl eq_refl eq_refl eq_refl)
    as [[_ [Hl _]] [_ [_ [_ [Hcu _]]]]].
  split; [reflexivity | split; [exact Hl | exact Hcu]].
Defined.
